(** * maskrcnn_benchmark/engine/trainer.py: [reduce_loss_dict] and [do_train]

    A shallow embedding of the training driver.  Loss dictionaries are
    insertion-ordered association lists from loss names to scalar tensors,
    Python exceptions are an error type, and the framework objects the
    driver calls into (model, optimizer, scheduler, autograd, process
    group, logging, clock) act on a hidden runtime state; every call the
    driver makes is also recorded, in order, in a trace. *)

From Stdlib Require Import ZArith QArith String List.
From stdpp Require Import base option list sorting strings gmap.

Open Scope string_scope.
Open Scope list_scope.

(** ** Python values and builtins *)

(** The exceptions the driver's own statements can raise. *)
Inductive exn : Type :=
| KeyError (k : string)      (* [arguments["iteration"]] on a missing key *)
| RuntimeError               (* [torch.stack] of an empty sequence *)
| TypeError                  (* a keyword argument passed twice *)
| AttributeError             (* [.backward()] on the int [0] *)
| ZeroDivisionError.         (* [total_training_time / max_iter] *)

Inductive result (A : Type) : Type :=
| Ok (a : A)
| Raise (e : exn).
Arguments Ok {A} a.
Arguments Raise {A} e.

(** A [dict] with string keys, in insertion order. *)
Definition dict (V : Type) : Type := list (string * V).

Definition keys {V} (d : dict V) : list string := d.*1.
Definition values {V} (d : dict V) : list V := d.*2.

(** [d[k]] *)
Fixpoint getitem {V} (d : dict V) (k : string) : option V :=
  match d with
  | [] => None
  | (k', v) :: d' => if String.eqb k' k then Some v else getitem d' k
  end.

(** [sorted(...)] on strings: ascending by code point. *)
Definition sorted (ks : list string) : list string := merge_sort String.le ks.

Section Tensors.
(** Scalar tensors with the two arithmetic operations the driver uses:
    addition, and division by the (integer) world size.  [tzero] is the
    int [0] that [sum] starts from. *)
Context {T : Type}.
Variable tadd : T -> T -> T.
Variable tdiv : T -> Z -> T.
Variable tzero : T.

(** [sum(loss for loss in d.values())] *)
Definition py_sum (vs : list T) : T := fold_left tadd vs tzero.

(** [torch.stack(all_losses, dim=0)]: a one-dimensional tensor holding a
    copy of the scalars; an empty sequence is rejected. *)
Definition torch_stack (all_losses : list T) : result (list T) :=
  match all_losses with
  | [] => Raise RuntimeError
  | _ => Ok all_losses
  end.

(** The loop of lines 25-27: walk the sorted names and look each one up. *)
Fixpoint collect (loss_dict : dict T) (ks : list string)
  : result (list string * list T) :=
  match ks with
  | [] => Ok ([], [])
  | k :: ks' =>
      match getitem loss_dict k with
      | None => Raise (KeyError k)
      | Some v =>
          match collect loss_dict ks' with
          | Ok (loss_names, all_losses) => Ok (k :: loss_names, v :: all_losses)
          | Raise e => Raise e
          end
      end
  end.

(** In-place elementwise accumulation of a peer's tensor into the local
    one.  The local tensor keeps its shape; all ranks are expected to
    contribute tensors of one shape. *)
Fixpoint tensor_iadd (t p : list T) : list T :=
  match t, p with
  | x :: t', y :: p' => tadd x y :: tensor_iadd t' p'
  | _, _ => t
  end.

(** What [dist.reduce(t, dst=0)] leaves in the local tensor [t], given the
    tensors [peers] the other ranks pass to the same collective (in rank
    order).  On the destination the tensor holds the elementwise sum; on
    any other rank the content is whatever the backend left there,
    [scratch]. *)
Variable scratch : Z -> list (list T) -> list T -> nat -> T -> T.

Definition reduce_sum (peers : list (list T)) (t : list T) : list T :=
  fold_left tensor_iadd peers t.

Definition dist_reduce (rank : Z) (peers : list (list T)) (t : list T)
  : list T :=
  if (rank =? 0)%Z then reduce_sum peers t
  else imap (scratch rank peers t) t.

(** [all_losses /= world_size] *)
Definition idiv (world_size : Z) (t : list T) : list T :=
  map (fun x => tdiv x world_size) t.

End Tensors.

(** ** The framework objects and the state they act on *)

Section Trainer.
Context {T : Type}.
Variable tadd : T -> T -> T.
Variable tdiv : T -> Z -> T.
Variable tzero : T.
Variable scratch : Z -> list (list T) -> list T -> nat -> T -> T.

(** [RT] is the hidden state of the framework (parameters, gradients,
    optimizer and scheduler state, the other workers); [Img], [Tgt] and
    [Aux] are the three components of a batch, [Dev] a device, [E] what
    the forward pass can raise. *)
Context {RT Img Tgt Aux Dev E MetricLogger : Type}.

Record Model : Type := {
  model_train : RT -> RT;                                   (* model.train() *)
  model_call : Img -> list Tgt -> RT -> RT * (E + dict T)   (* model(images, targets) *)
}.

Record Optimizer : Type := {
  zero_grad : RT -> RT;
  optimizer_step : RT -> RT
}.

Record Scheduler : Type := {
  scheduler_step : RT -> RT
}.

(** The process group behind [get_world_size()], [dist.get_rank()] and
    [dist.reduce]. [peer_tensors] are the tensors the other ranks
    contribute to the next collective, in rank order. *)
Record ProcessGroup : Type := {
  get_world_size : Z;
  get_rank : Z;
  peer_tensors : RT -> list (list T);
  reduce_effect : RT -> RT
}.

Variable dist : ProcessGroup.
Variable backward : T -> RT -> RT.                     (* losses.backward() *)
Variable to_img : Dev -> Img -> Img.                   (* images.to(device) *)
Variable to_tgt : Dev -> Tgt -> Tgt.                   (* target.to(device) *)
Variable new_MetricLogger : string -> MetricLogger.    (* MetricLogger(delimiter=...) *)
Variable meters_update : MetricLogger -> dict T -> MetricLogger. (* .update( **kwargs) *)

Inductive log_msg : Type :=
| StartTraining
| TrainMeters (m : MetricLogger)
| TestMeters (m : MetricLogger)
| TotalTime.

Inductive event : Type :=
| EvLog (m : log_msg)
| EvClock
| EvModelTrain
| EvSchedulerStep
| EvForward (images : Img) (targets : list Tgt)
| EvReduce (all_losses : list T)
| EvZeroGrad
| EvBackward (losses : T)
| EvOptimizerStep.

Record state : Type := mkState {
  runtime : RT;
  trace : list event;
  arguments : gmap string Z
}.

(** *** State and exceptions *)

Definition M (A : Type) : Type := state -> state * result A.

Definition ret {A} (a : A) : M A := fun s => (s, Ok a).

Definition bind {A B} (c : M A) (k : A -> M B) : M B :=
  fun s => match c s with
           | (s', Ok a) => k a s'
           | (s', Raise e) => (s', Raise e)
           end.

Definition raise {A} (e : exn) : M A := fun s => (s, Raise e).

Definition lift {A} (r : result A) : M A := fun s => (s, r).

Notation "'let*' x ':=' c1 'in' c2" := (bind c1 (fun x => c2))
  (at level 10, x name, c1 at level 100, c2 at level 200).
Notation "c1 ';;;' c2" := (bind c1 (fun _ => c2))
  (at level 100, c2 at level 200, right associativity).

(** A framework call: it acts on the runtime and is recorded. *)
Definition call (ev : event) (f : RT -> RT) : M unit :=
  fun s => (mkState (f (runtime s)) (trace s ++ [ev]) (arguments s), Ok tt).

Definition log_debug (m : log_msg) : M unit := call (EvLog m) id.
Definition time_time : M unit := call EvClock id.

Definition get_argument (k : string) : M Z :=
  fun s => match arguments s !! k with
           | Some v => (s, Ok v)
           | None => (s, Raise (KeyError k))
           end.

Definition set_argument (k : string) (v : Z) : M unit :=
  fun s => (mkState (runtime s) (trace s) (<[k:=v]> (arguments s)), Ok tt).

(** [try: loss_dict = model(images, targets)  except: continue] hands
    the outcome to the loop; whatever was raised stays inside. *)
Definition forward (model : Model) (images : Img) (targets : list Tgt)
  : M (E + dict T) :=
  fun s => let (rt, r) := model_call model images targets (runtime s) in
           (mkState rt (trace s ++ [EvForward images targets]) (arguments s), Ok r).

(** [dist.reduce(all_losses, dst=0)], in place on [all_losses]. *)
Definition after_reduce (all_losses : list T) (s : state) : state :=
  mkState (reduce_effect dist (runtime s))
          (trace s ++ [EvReduce all_losses]) (arguments s).

Definition reduce (all_losses : list T) : M (list T) :=
  fun s => (after_reduce all_losses s,
            Ok (dist_reduce tadd scratch (get_rank dist)
                            (peer_tensors dist (runtime s)) all_losses)).

(** *** [reduce_loss_dict] *)

Definition reduce_loss_dict (loss_dict : dict T) : M (dict T) :=
  let world_size := get_world_size dist in
  if (world_size <? 2)%Z then ret loss_dict else
  (* with torch.no_grad(): *)
  let* collected := lift (collect loss_dict (sorted (keys loss_dict))) in
  let (loss_names, all_losses) := collected in
  let* all_losses := lift (torch_stack all_losses) in
  let* all_losses := reduce all_losses in
  let all_losses :=
    if (get_rank dist =? 0)%Z then idiv tdiv world_size all_losses
    else all_losses in
  let reduced_losses := zip loss_names all_losses in
  ret reduced_losses.

(** *** [do_train] *)

(** [meters.update(loss=loss, **d)]: one keyword dictionary, in which
    [loss] must not occur twice. *)
Definition update (meters : MetricLogger) (loss : T) (d : dict T)
  : M MetricLogger :=
  if bool_decide ("loss" ∈ keys d) then raise TypeError
  else ret (meters_update meters (("loss", loss) :: d)).

(** [losses.backward()]: [losses] is a tensor unless the sum ran over no
    value at all, when it is the int [0]. *)
Definition losses_backward (loss_dict : dict T) (losses : T) : M unit :=
  match loss_dict with
  | [] => raise AttributeError
  | _ => call (EvBackward losses) (backward losses)
  end.

Definition batch : Type := Img * list Tgt * Aux.

(** The body of the training loop (lines 55-79); [i] is the counter
    [enumerate] hands out. *)
Definition train_iteration (model : Model) (optimizer : Optimizer)
    (scheduler : Scheduler) (device : Dev) (max_iter : Z)
    (i : Z) (b : batch) (train_meters : MetricLogger) : M MetricLogger :=
  let '(images, targets, _) := b in
  let iteration := (i + 1)%Z in
  set_argument "iteration" iteration ;;;
  call EvSchedulerStep (scheduler_step scheduler) ;;;
  let images := to_img device images in
  let targets := map (to_tgt device) targets in
  let* r := forward model images targets in
  match r with
  | inl _ => ret train_meters                              (* continue *)
  | inr loss_dict =>
      let losses := py_sum tadd tzero (values loss_dict) in
      let* loss_dict_reduced := reduce_loss_dict loss_dict in
      let losses_reduced := py_sum tadd tzero (values loss_dict_reduced) in
      let* train_meters := update train_meters losses_reduced loss_dict_reduced in
      call EvZeroGrad (zero_grad optimizer) ;;;
      losses_backward loss_dict losses ;;;
      call EvOptimizerStep (optimizer_step optimizer) ;;;
      (if (iteration mod 10 =? 0)%Z || (iteration =? max_iter)%Z
       then log_debug (TrainMeters train_meters) else ret tt) ;;;
      ret train_meters
  end.

Fixpoint train_loop (model : Model) (optimizer : Optimizer)
    (scheduler : Scheduler) (device : Dev) (max_iter : Z)
    (i : Z) (loader : list batch) (train_meters : MetricLogger)
  : M MetricLogger :=
  match loader with
  | [] => ret train_meters
  | b :: rest =>
      let* train_meters :=
        train_iteration model optimizer scheduler device max_iter i b train_meters in
      train_loop model optimizer scheduler device max_iter (i + 1)%Z rest train_meters
  end.

(** The body of the test loop (lines 83-93). *)
Definition test_iteration (model : Model) (device : Dev)
    (b : batch) (test_meters : MetricLogger) : M MetricLogger :=
  let '(images, targets, _) := b in
  let images := to_img device images in
  let targets := map (to_tgt device) targets in
  let* r := forward model images targets in
  match r with
  | inl _ => ret test_meters                               (* continue *)
  | inr test_loss_dict =>
      let* test_loss_dict_reduced := reduce_loss_dict test_loss_dict in
      let test_losses_reduced := py_sum tadd tzero (values test_loss_dict_reduced) in
      update test_meters test_losses_reduced test_loss_dict_reduced
  end.

Fixpoint test_loop (model : Model) (device : Dev)
    (loader : list batch) (test_meters : MetricLogger) : M MetricLogger :=
  match loader with
  | [] => ret test_meters
  | b :: rest =>
      let* test_meters := test_iteration model device b test_meters in
      test_loop model device rest test_meters
  end.

Definition do_train_body (model : Model)
    (train_data_loader test_data_loader : list batch)
    (optimizer : Optimizer) (scheduler : Scheduler) (device : Dev)
  : M (MetricLogger * MetricLogger) :=
  log_debug StartTraining ;;;
  let train_meters := new_MetricLogger "  " in
  let max_iter := Z.of_nat (length train_data_loader) in
  let* start_iter := get_argument "iteration" in
  call EvModelTrain (model_train model) ;;;
  time_time ;;;
  let* train_meters :=
    train_loop model optimizer scheduler device max_iter
               start_iter train_data_loader train_meters in
  let test_meters := new_MetricLogger "  " in
  let* test_meters := test_loop model device test_data_loader test_meters in
  log_debug (TestMeters test_meters) ;;;
  time_time ;;;
  (if (max_iter =? 0)%Z then raise ZeroDivisionError else log_debug TotalTime) ;;;
  ret (train_meters, test_meters).

(** [do_train(model, train_data_loader, test_data_loader, optimizer,
    scheduler, device, arguments)], started in runtime [rt].  The caller's
    [arguments] mapping is mutated in place: its final content is the
    [arguments] field of the final state. *)
Definition do_train (model : Model)
    (train_data_loader test_data_loader : list batch)
    (optimizer : Optimizer) (scheduler : Scheduler) (device : Dev)
    (arguments : gmap string Z) (rt : RT)
  : state * result (MetricLogger * MetricLogger) :=
  do_train_body model train_data_loader test_data_loader
                optimizer scheduler device (mkState rt [] arguments).

End Trainer.

(** ** [reduce_loss_dict] on the object store

    The same function once more, this time with the objects it handles
    held in a store, to follow what is shared and what is written: the
    dictionaries are objects, their values are references to scalar
    tensors, and a scalar tensor is a view of one cell of a storage.
    [None] stands for a store in which a reference dangles, which no Python
    program can produce. *)

Module Store.
Section Store.
Context {T : Type}.
Variable tadd : T -> T -> T.
Variable tdiv : T -> Z -> T.
Variable scratch : Z -> list (list T) -> list T -> nat -> T -> T.

(** A zero-dimensional tensor: cell [offset] of the storage at [storage]. *)
Record tensor_ref : Type := TensorRef { storage : positive; offset : nat }.

Record heap : Type := Heap {
  storages : gmap positive (list T);
  dicts : gmap positive (dict tensor_ref)
}.

(** The value a scalar tensor holds. *)
Definition read (h : heap) (r : tensor_ref) : option T :=
  data ← storages h !! storage r; data !! offset r.

(** The values of a dictionary, entry by entry. *)
Definition load (h : heap) (d : dict tensor_ref) : option (dict T) :=
  mapM (fun kv => v ← read h kv.2; Some (kv.1, v)) d.

(** A new storage holding [data]. *)
Definition alloc_storage (data : list T) (h : heap) : positive * heap :=
  let a := fresh (dom (storages h)) in
  (a, Heap (<[a := data]> (storages h)) (dicts h)).

(** A new dictionary object. *)
Definition alloc_dict (d : dict tensor_ref) (h : heap) : positive * heap :=
  let q := fresh (dom (dicts h)) in
  (q, Heap (storages h) (<[q := d]> (dicts h))).

(** An in-place operation on the storage at [a]. *)
Definition update_storage (a : positive) (f : list T -> list T) (h : heap)
  : option heap :=
  data ← storages h !! a;
  Some (Heap (<[a := f data]> (storages h)) (dicts h)).

(** Iterating a one-dimensional tensor yields one view per cell. *)
Definition unbind (a : positive) (n : nat) : list tensor_ref :=
  TensorRef a <$> seq 0 n.

Definition reduce_loss_dict (world_size rank : Z) (peers : list (list T))
    (loss_dict : positive) (h : heap) : option (heap * result positive) :=
  if (world_size <? 2)%Z then Some (h, Ok loss_dict) else
  d ← dicts h !! loss_dict;
  match collect d (sorted (keys d)) with
  | Raise e => Some (h, Raise e)
  | Ok (loss_names, all_losses) =>
      (* torch.stack copies the scalars into a tensor of its own *)
      data ← mapM (read h) all_losses;
      match torch_stack data with
      | Raise e => Some (h, Raise e)
      | Ok data =>
          let (all_losses, h) := alloc_storage data h in
          (* dist.reduce(all_losses, dst=0) *)
          h ← update_storage all_losses (dist_reduce tadd scratch rank peers) h;
          (* all_losses /= world_size *)
          h ← (if (rank =? 0)%Z
               then update_storage all_losses (idiv tdiv world_size) h
               else Some h);
          (* {k: v for k, v in zip(loss_names, all_losses)} *)
          let (reduced_losses, h) :=
            alloc_dict (zip loss_names (unbind all_losses (length data))) h in
          Some (h, Ok reduced_losses)
      end
  end.
End Store.
End Store.

(** ** Specification-side notions *)

Section Notions.
Context {T : Type}.
Variable tadd : T -> T -> T.
Variable tdiv : T -> Z -> T.
Variable tzero : T.

(** The values of [d] in the order of its sorted names: the content of
    the tensor built at lines 23-28. *)
Definition stacked (d : dict T) : list T :=
  omap (getitem d) (sorted (keys d)).

(** [d[k]], with a missing name read as [tzero]. *)
Definition item (d : dict T) (k : string) : T := default tzero (getitem d k).

(** The average of the values the workers hold (rank 0 first). *)
Definition average (xs : list T) : T :=
  match xs with
  | [] => tzero
  | x :: xs' => tdiv (fold_left tadd xs' x) (Z.of_nat (length xs))
  end.
End Notions.

Section Traces.
Context {T Img Tgt MetricLogger E : Type}.

Definition is_reduce (ev : @event T Img Tgt MetricLogger) : bool :=
  match ev with EvReduce _ => true | _ => false end.

Definition is_scheduler_step (ev : @event T Img Tgt MetricLogger) : bool :=
  match ev with EvSchedulerStep => true | _ => false end.

Definition is_log (ev : @event T Img Tgt MetricLogger) : bool :=
  match ev with EvLog _ => true | _ => false end.

Definition is_forward (ev : @event T Img Tgt MetricLogger) : bool :=
  match ev with EvForward _ _ => true | _ => false end.

Definition is_zero_grad (ev : @event T Img Tgt MetricLogger) : bool :=
  match ev with EvZeroGrad => true | _ => false end.

Definition is_backward (ev : @event T Img Tgt MetricLogger) : bool :=
  match ev with EvBackward _ => true | _ => false end.

Definition is_optimizer_step (ev : @event T Img Tgt MetricLogger) : bool :=
  match ev with EvOptimizerStep => true | _ => false end.

Definition is_model_train (ev : @event T Img Tgt MetricLogger) : bool :=
  match ev with EvModelTrain => true | _ => false end.

(** How many of the recorded calls satisfy [p]. *)
Definition count_calls (p : @event T Img Tgt MetricLogger -> bool)
    (tr : list (@event T Img Tgt MetricLogger)) : nat :=
  length (List.filter p tr).

(** The collectives one loop iteration issues, from the outcome of its
    forward pass: none for a dropped batch or below two workers, none
    when there is nothing to stack, one otherwise. *)
Definition collectives_due (world_size : Z) (r : E + dict T) : nat :=
  match r with
  | inl _ => 0
  | inr loss_dict =>
      if (world_size <? 2)%Z then 0
      else match loss_dict with [] => 0 | _ => 1 end
  end.
End Traces.

(** A model whose successful forward passes return a dictionary the rest of
    the iteration accepts: at least one loss, and none called [loss] (the
    keyword the total is passed under). *)
Definition usable_losses {T RT Img Tgt E : Type} (model : @Model T RT Img Tgt E)
  : Prop :=
  forall images targets rt rt' loss_dict,
    model_call model images targets rt = (rt', inr loss_dict) ->
    loss_dict <> [] /\ "loss" ∉ keys loss_dict.


(** A model whose forward pass raises on every batch, in every state. *)
Definition always_fails {T RT Img Tgt E : Type} (model : @Model T RT Img Tgt E)
  : Prop :=
  forall images targets rt,
    exists rt' e, model_call model images targets rt = (rt', inl e).

(** ** A small instance

    Rational losses, two loss names, a model that rejects a batch with a
    negative image, and one peer worker. *)

Module Demo.
Definition tadd (x y : Q) : Q := Qred (x + y).
Definition tdiv (x : Q) (n : Z) : Q := Qred (x / inject_Z n).
Definition tzero : Q := 0%Q.

(** A backend that leaves the tensor of a non-destination rank alone. *)
Definition scratch (rank : Z) (peers : list (list Q)) (t : list Q)
    (i : nat) (x : Q) : Q := x.

(** The runtime counts the optimizer steps taken. *)
Definition model : @Model Q nat Z Z string := {|
  model_train := fun rt => rt;
  model_call := fun images targets rt =>
    if (images <? 0)%Z then (rt, inl "bad batch")
    else (rt, inr [("loss_objectness", inject_Z images);
                   ("loss_classifier", (1 # 2)%Q)])
|}.

Definition optimizer : @Optimizer nat := {|
  zero_grad := fun rt => rt;
  optimizer_step := fun rt => S rt
|}.

Definition scheduler : @Scheduler nat := {| scheduler_step := fun rt => rt |}.

Definition backward (losses : Q) (rt : nat) : nat := rt.
Definition to_img (device : string) (images : Z) : Z := images.
Definition to_tgt (device : string) (target : Z) : Z := target.

(** Metric accumulators remember the updates they received, latest first. *)
Definition new_MetricLogger (delimiter : string) : list (dict Q) := [].
Definition meters_update (meters : list (dict Q)) (kwargs : dict Q)
  : list (dict Q) := kwargs :: meters.

(** The dictionary the peer holds: the same names, inserted in another
    order. *)
Definition peer_dict : dict Q :=
  [("loss_classifier", (3 # 2)%Q); ("loss_objectness", 4%Q)].

Definition group (world_size rank : Z) : @ProcessGroup Q nat := {|
  get_world_size := world_size;
  get_rank := rank;
  peer_tensors := fun rt => [stacked peer_dict];
  reduce_effect := fun rt => rt
|}.

Definition loss_dict : dict Q :=
  [("loss_objectness", 2%Q); ("loss_classifier", (1 # 2)%Q)].

Definition s0 : @state Q nat Z Z (list (dict Q)) :=
  mkState 0%nat [] {["iteration" := 0%Z]}.

Definition good_batch : @batch Z Z unit := (2%Z, [7%Z], tt).
Definition bad_batch : @batch Z Z unit := ((-1)%Z, [], tt).
Definition train_data_loader : list (@batch Z Z unit) :=
  [good_batch; bad_batch; (4%Z, [], tt)].
Definition test_data_loader : list (@batch Z Z unit) :=
  [bad_batch; good_batch].

(** Three faulty models: one that always raises, one that returns no
    loss at all, one that names a loss [loss]. *)
Definition broken_model : @Model Q nat Z Z string := {|
  model_train := fun rt => rt;
  model_call := fun images targets rt => (rt, inl "out of memory")
|}.

Definition empty_model : @Model Q nat Z Z string := {|
  model_train := fun rt => rt;
  model_call := fun images targets rt => (rt, inr [])
|}.

Definition clash_model : @Model Q nat Z Z string := {|
  model_train := fun rt => rt;
  model_call := fun images targets rt =>
    (rt, inr [("loss", inject_Z images); ("loss_mask", 1%Q)])
|}.

Definition train_iteration_of (m : @Model Q nat Z Z string)
    (world_size rank : Z) :=
  @train_iteration Q tadd tdiv tzero scratch nat Z Z unit string string
    (list (dict Q)) (group world_size rank) backward to_img to_tgt
    meters_update m optimizer scheduler "cuda".

Definition test_iteration_of (m : @Model Q nat Z Z string)
    (world_size rank : Z) :=
  @test_iteration Q tadd tdiv tzero scratch nat Z Z unit string string
    (list (dict Q)) (group world_size rank) to_img to_tgt
    meters_update m "cuda".

Definition do_train_of (m : @Model Q nat Z Z string)
    (train test : list (@batch Z Z unit)) (world_size rank : Z) :=
  @do_train Q tadd tdiv tzero scratch nat Z Z unit string string
    (list (dict Q)) (group world_size rank) backward to_img to_tgt
    new_MetricLogger meters_update m train test optimizer scheduler "cuda".

Definition reduce_loss_dict (world_size rank : Z) :=
  @reduce_loss_dict Q tadd tdiv scratch nat Z Z (list (dict Q))
                    (group world_size rank).

Definition train_iteration (world_size rank : Z) :=
  @train_iteration Q tadd tdiv tzero scratch nat Z Z unit string string
    (list (dict Q)) (group world_size rank) backward to_img to_tgt
    meters_update model optimizer scheduler "cuda".

Definition test_iteration (world_size rank : Z) :=
  @test_iteration Q tadd tdiv tzero scratch nat Z Z unit string string
    (list (dict Q)) (group world_size rank) to_img to_tgt
    meters_update model "cuda".

Definition train_loop (world_size rank : Z) :=
  @train_loop Q tadd tdiv tzero scratch nat Z Z unit string string
    (list (dict Q)) (group world_size rank) backward to_img to_tgt
    meters_update model optimizer scheduler "cuda".

Definition test_loop (world_size rank : Z) :=
  @test_loop Q tadd tdiv tzero scratch nat Z Z unit string string
    (list (dict Q)) (group world_size rank) to_img to_tgt
    meters_update model "cuda".

Definition do_train (world_size rank : Z) :=
  @do_train Q tadd tdiv tzero scratch nat Z Z unit string string
    (list (dict Q)) (group world_size rank) backward to_img to_tgt
    new_MetricLogger meters_update model train_data_loader test_data_loader
    optimizer scheduler "cuda".

Definition arguments5 : gmap string Z := {["iteration" := 5%Z]}.

(** [loss_dict] with its entries inserted the other way round. *)
Definition loss_dict_swapped : dict Q :=
  [("loss_classifier", (1 # 2)%Q); ("loss_objectness", 2%Q)].

(** A store holding [loss_dict]: two scalar tensors and the dictionary. *)
Definition heap0 : @Store.heap Q :=
  Store.Heap {[1%positive := [2%Q]; 2%positive := [(1 # 2)%Q]]}
             {[1%positive := [("loss_objectness", Store.TensorRef 1 0);
                              ("loss_classifier", Store.TensorRef 2 0)]]}.

Definition store_reduce_loss_dict (world_size rank : Z) :=
  @Store.reduce_loss_dict Q tadd tdiv scratch world_size rank
                          [stacked peer_dict].
End Demo.

(** ** Facts about the builtins *)

Section BuiltinFacts.
Context {V : Type}.
Implicit Types (d : dict V) (k : string) (ks : list string).

Lemma getitem_is_Some d k : k ∈ keys d -> is_Some (getitem d k).
Proof.
  unfold keys. induction d as [|[k' v] d IH]; simpl.
  - intros H. by apply elem_of_nil in H.
  - intros H. destruct (String.eqb_spec k' k) as [->|Hne]; [by eexists|].
    apply elem_of_cons in H as [H|H]; [congruence|auto].
Qed.

Lemma getitem_elem_of d k v : getitem d k = Some v -> k ∈ keys d.
Proof.
  unfold keys. induction d as [|[k' x] d IH]; simpl; [done|].
  destruct (String.eqb_spec k' k) as [->|Hne]; intros H.
  - apply elem_of_cons; by left.
  - apply elem_of_cons; right; auto.
Qed.

Lemma sorted_perm ks : sorted ks ≡ₚ ks.
Proof. apply merge_sort_Permutation. Qed.

Lemma sorted_Sorted ks : Sorted String.le (sorted ks).
Proof. apply (Sorted_merge_sort String.le). Qed.

Lemma sorted_length ks : length (sorted ks) = length ks.
Proof. by rewrite sorted_perm. Qed.

(** Two lists of the same names sort to the same list. *)
Lemma sorted_unique ks1 ks2 : ks1 ≡ₚ ks2 -> sorted ks1 = sorted ks2.
Proof.
  intros Hp. apply (Sorted_unique String.le); try apply sorted_Sorted.
  by rewrite !sorted_perm.
Qed.

Lemma sorted_elem_of ks k : k ∈ sorted ks <-> k ∈ ks.
Proof. by rewrite sorted_perm. Qed.

Lemma keys_zip {A} ks (vs : list A) :
  length ks = length vs -> keys (zip ks vs) = ks.
Proof. intros H. unfold keys. apply fst_zip. lia. Qed.

Lemma getitem_zip_fmap (h : string -> V) ks k :
  k ∈ ks -> getitem (zip ks (h <$> ks)) k = Some (h k).
Proof.
  induction ks as [|k' ks IH]; simpl.
  - intros H. by apply elem_of_nil in H.
  - intros H. destruct (String.eqb_spec k' k) as [->|Hne]; [done|].
    apply elem_of_cons in H as [H|H]; [congruence|auto].
Qed.
Lemma omap_pointwise {A B} (f g : A -> option B) (l : list A) :
  (forall x, f x = g x) -> omap f l = omap g l.
Proof.
  intros Hfg. induction l as [|x l IH]; [done|].
  change (omap f (x :: l))
    with (match f x with Some y => y :: omap f l | None => omap f l end).
  change (omap g (x :: l))
    with (match g x with Some y => y :: omap g l | None => omap g l end).
  by rewrite Hfg, IH.
Qed.

(** Looking a name up does not depend on the order of insertion. *)
Lemma getitem_perm (d1 d2 : dict V) k :
  NoDup (keys d1) -> d1 ≡ₚ d2 -> getitem d1 k = getitem d2 k.
Proof.
  intros Hnd Hp. induction Hp as [|[k1 v1] l l' Hp IH
                                   |[k1 v1] [k2 v2] l|l l' l'' Hp1 IH1 Hp2 IH2].
  - done.
  - simpl. destruct (String.eqb k1 k); [done|].
    apply IH. unfold keys in *. simpl in Hnd. by apply NoDup_cons in Hnd as [_ ?].
  - simpl. destruct (String.eqb_spec k2 k) as [->|?];
      destruct (String.eqb_spec k1 k) as [->|?]; try done.
    unfold keys in Hnd. simpl in Hnd. apply NoDup_cons in Hnd as [Hnotin _].
    exfalso. apply Hnotin. apply elem_of_cons. by left.
  - rewrite IH1 by done. apply IH2.
    unfold keys in *. by rewrite <- Hp1.
Qed.

Lemma stacked_perm (d1 d2 : dict V) :
  NoDup (keys d1) -> d1 ≡ₚ d2 -> stacked d1 = stacked d2.
Proof.
  intros Hnd Hp. unfold stacked.
  assert (Hk : keys d1 ≡ₚ keys d2) by (unfold keys; by rewrite Hp).
  rewrite (sorted_unique _ _ Hk). apply omap_pointwise.
  intros k. by apply getitem_perm.
Qed.
End BuiltinFacts.

(** ** Facts about the tensor operations *)

Section TensorFacts.
Context {T : Type}.
Variable tadd : T -> T -> T.
Variable tdiv : T -> Z -> T.
Variable tzero : T.
Variable scratch : Z -> list (list T) -> list T -> nat -> T -> T.
Implicit Types (d : dict T) (k : string) (ks : list string) (t p : list T).

Lemma omap_getitem d ks :
  Forall (fun k => k ∈ keys d) ks -> omap (getitem d) ks = item tzero d <$> ks.
Proof.
  induction 1 as [|k ks Hk _ IH]; [done|].
  destruct (getitem_is_Some d k Hk) as [v Hv].
  change (omap (getitem d) (k :: ks))
    with (match getitem d k with
          | Some y => y :: omap (getitem d) ks
          | None => omap (getitem d) ks
          end).
  rewrite fmap_cons, IH, Hv. unfold item at 2. by rewrite Hv.
Qed.

Lemma collect_present d ks :
  Forall (fun k => k ∈ keys d) ks -> collect d ks = Ok (ks, omap (getitem d) ks).
Proof.
  induction 1 as [|k ks Hk _ IH]; [done|].
  destruct (getitem_is_Some d k Hk) as [v Hv].
  change (omap (getitem d) (k :: ks))
    with (match getitem d k with
          | Some y => y :: omap (getitem d) ks
          | None => omap (getitem d) ks
          end).
  simpl collect. by rewrite Hv, IH.
Qed.

Lemma sorted_keys_present d : Forall (fun k => k ∈ keys d) (sorted (keys d)).
Proof. apply Forall_forall. intros k. by rewrite sorted_elem_of. Qed.

(** The loop of lines 25-27 never raises. *)
Lemma collect_sorted d :
  collect d (sorted (keys d)) = Ok (sorted (keys d), stacked d).
Proof. apply collect_present, sorted_keys_present. Qed.

Lemma stacked_item d : stacked d = item tzero d <$> sorted (keys d).
Proof. apply omap_getitem, sorted_keys_present. Qed.

Lemma omap_getitem_length d ks :
  Forall (fun k => k ∈ keys d) ks -> length (omap (getitem d) ks) = length ks.
Proof.
  induction 1 as [|k ks Hk _ IH]; [done|].
  destruct (getitem_is_Some d k Hk) as [v Hv].
  change (omap (getitem d) (k :: ks))
    with (match getitem d k with
          | Some y => y :: omap (getitem d) ks
          | None => omap (getitem d) ks
          end).
  rewrite Hv. simpl. by rewrite IH.
Qed.

Lemma stacked_length d : length (stacked d) = length d.
Proof.
  unfold stacked.
  rewrite omap_getitem_length by apply sorted_keys_present.
  rewrite sorted_length. unfold keys. by rewrite length_fmap.
Qed.

Lemma stacked_nil d : stacked d = [] <-> d = [].
Proof.
  split; [|by intros ->].
  intros H. apply nil_length_inv. rewrite <- stacked_length, H. done.
Qed.

Lemma torch_stack_stacked d : d <> [] -> torch_stack (stacked d) = Ok (stacked d).
Proof.
  intros Hd. destruct (stacked d) eqn:E; [|done].
  by apply stacked_nil in E.
Qed.

Lemma tensor_iadd_length t p : length (tensor_iadd tadd t p) = length t.
Proof.
  revert p. induction t as [|x t IH]; intros [|y p]; simpl; auto.
Qed.

Lemma reduce_sum_length peers t : length (reduce_sum tadd peers t) = length t.
Proof.
  unfold reduce_sum. revert t.
  induction peers as [|p peers IH]; intros t; simpl; [done|].
  by rewrite IH, tensor_iadd_length.
Qed.

(** A collective leaves the shape of the local tensor alone. *)
Lemma dist_reduce_length rank peers t :
  length (dist_reduce tadd scratch rank peers t) = length t.
Proof.
  unfold dist_reduce. destruct (rank =? 0)%Z.
  - apply reduce_sum_length.
  - apply length_imap.
Qed.

Lemma idiv_length ws t : length (idiv tdiv ws t) = length t.
Proof. apply length_map. Qed.

Lemma tensor_iadd_fmap (f g : string -> T) ks :
  tensor_iadd tadd (f <$> ks) (g <$> ks) = (fun k => tadd (f k) (g k)) <$> ks.
Proof.
  induction ks as [|k ks IH]; [done|].
  rewrite !fmap_cons. cbn [tensor_iadd]. by rewrite IH.
Qed.

(** Summing tensors that are all indexed by the same names sums name by
    name. *)
Lemma reduce_sum_fmap (fs : list (string -> T)) (f : string -> T) ks :
  reduce_sum tadd ((fun g => g <$> ks) <$> fs) (f <$> ks)
  = (fun k => fold_left tadd ((fun g => g k) <$> fs) (f k)) <$> ks.
Proof.
  unfold reduce_sum. revert f.
  induction fs as [|g fs IH]; intros f; [done|].
  rewrite fmap_cons. cbn [fold_left]. cbv beta. rewrite tensor_iadd_fmap, IH. done.
Qed.
End TensorFacts.

(** ** [reduce_loss_dict] *)

Section ReduceLossDict.
Context {T : Type}.
Variable tadd : T -> T -> T.
Variable tdiv : T -> Z -> T.
Variable tzero : T.
Variable scratch : Z -> list (list T) -> list T -> nat -> T -> T.
Context {RT Img Tgt MetricLogger : Type}.
Variable dist : @ProcessGroup T RT.

Local Abbreviation state := (@state T RT Img Tgt MetricLogger).
Local Abbreviation reduce_loss_dict :=
  (@reduce_loss_dict T tadd tdiv scratch RT Img Tgt MetricLogger dist).
Local Abbreviation after_reduce :=
  (@after_reduce T RT Img Tgt MetricLogger dist).
Local Abbreviation world_size := (get_world_size dist).
Local Abbreviation rank := (get_rank dist).

Implicit Types (d loss_dict : dict T) (s : state) (k : string).

Lemma reduce_loss_dict_reducing loss_dict s :
  (2 <= world_size)%Z -> loss_dict <> [] ->
  reduce_loss_dict loss_dict s =
    (after_reduce (stacked loss_dict) s,
     Ok (zip (sorted (keys loss_dict))
             (let t := dist_reduce tadd scratch rank
                         (peer_tensors dist (runtime s)) (stacked loss_dict) in
              if (rank =? 0)%Z then idiv tdiv world_size t else t))).
Proof.
  intros Hws Hd. unfold reduce_loss_dict.
  destruct (Z.ltb_spec world_size 2) as [?|_]; [lia|].
  unfold bind, lift. rewrite collect_sorted, torch_stack_stacked by done.
  unfold reduce, ret. by destruct (rank =? 0)%Z.
Qed.

Lemma reduce_loss_dict_empty s :
  (2 <= world_size)%Z -> reduce_loss_dict [] s = (s, Raise RuntimeError).
Proof.
  intros Hws. unfold reduce_loss_dict.
  destruct (Z.ltb_spec world_size 2) as [?|_]; [lia|]. done.
Qed.

Lemma reduce_loss_dict_cases loss_dict s :
  (exists s' r, reduce_loss_dict loss_dict s = (s', Ok r))
  \/ (loss_dict = [] /\ (2 <= world_size)%Z
      /\ reduce_loss_dict loss_dict s = (s, Raise RuntimeError)).
Proof.
  destruct (Z.ltb_spec world_size 2) as [Hlt|Hge].
  - left. exists s, loss_dict. unfold reduce_loss_dict.
    destruct (Z.ltb_spec world_size 2); [done|lia].
  - destruct loss_dict as [|kv d].
    + right. by rewrite reduce_loss_dict_empty.
    + left. rewrite reduce_loss_dict_reducing by done. eauto.
Qed.

Lemma single_worker_identity loss_dict s :
  (world_size < 2)%Z -> reduce_loss_dict loss_dict s = (s, Ok loss_dict).
Proof.
  intros Hws. unfold reduce_loss_dict.
  destruct (Z.ltb_spec world_size 2); [done|lia].
Qed.

(** C2. With fewer than two workers [reduce_loss_dict] hands its argument
    back as it is: the same mapping, in the same order, and the state is
    untouched, so no name was sorted, no collective was issued and
    nothing was divided. *)
Theorem reduce_loss_dict_single_worker loss_dict s :
  (world_size < 2)%Z ->
  reduce_loss_dict loss_dict s = (s, Ok loss_dict)
  /\ trace (reduce_loss_dict loss_dict s).1 = trace s
  /\ count_calls is_reduce (trace (reduce_loss_dict loss_dict s).1)
     = count_calls is_reduce (trace s).
Proof.
  intros Hws. unfold reduce_loss_dict.
  destruct (Z.ltb_spec world_size 2) as [_|Hge]; [|lia].
  unfold ret. by repeat split.
Qed.

Lemma reduced_keys loss_dict s :
  (2 <= world_size)%Z -> loss_dict <> [] ->
  exists s' r, reduce_loss_dict loss_dict s = (s', Ok r)
               /\ keys r = sorted (keys loss_dict).
Proof.
  intros Hws Hd. rewrite reduce_loss_dict_reducing by done.
  eexists _, _. split; [done|]. apply keys_zip. cbv zeta.
  rewrite sorted_length. unfold keys at 1. rewrite length_fmap.
  destruct (rank =? 0)%Z;
    rewrite ?(idiv_length tdiv), (dist_reduce_length tadd scratch),
            (stacked_length); done.
Qed.

(** C3, amended. With two or more workers, the names of the mapping
    [reduce_loss_dict] returns come in the sorted order of the input's
    names, whatever order the input had them in, and it does return for
    every dictionary that is not empty.  With fewer than two workers the
    input itself is returned, so its names keep the order in which they
    were inserted. *)
Theorem reduce_loss_dict_key_order loss_dict s :
  ((2 <= world_size)%Z ->
     (loss_dict <> [] -> exists s' r, reduce_loss_dict loss_dict s = (s', Ok r))
     /\ forall s' r, reduce_loss_dict loss_dict s = (s', Ok r) ->
                     keys r = sorted (keys loss_dict))
  /\ ((world_size < 2)%Z ->
        exists r, reduce_loss_dict loss_dict s = (s, Ok r)
                  /\ r = loss_dict
                  /\ keys r = keys loss_dict).
Proof.
  split.
  - intros Hws. split.
    + intros Hd. destruct (reduced_keys loss_dict s Hws Hd) as (s' & r & H & _).
      eauto.
    + intros s' r H. destruct loss_dict as [|kv d].
      * rewrite reduce_loss_dict_empty in H by done. congruence.
      * destruct (reduced_keys (kv :: d) s Hws) as (s1 & r1 & H1 & Hk); [done|].
        congruence.
  - intros Hws. exists loss_dict.
    by rewrite single_worker_identity.
Qed.

(** C9. With two or more workers, on a rank other than 0 the returned
    values are the content of the tensor as the collective left it, name
    by name: nothing is divided by the world size there. *)
Theorem reduce_loss_dict_other_rank loss_dict s :
  (2 <= world_size)%Z -> rank <> 0%Z -> loss_dict <> [] ->
  reduce_loss_dict loss_dict s =
    (after_reduce (stacked loss_dict) s,
     Ok (zip (sorted (keys loss_dict))
             (imap (scratch rank (peer_tensors dist (runtime s)) (stacked loss_dict))
                   (stacked loss_dict)))).
Proof.
  intros Hws Hr Hd. rewrite reduce_loss_dict_reducing by done.
  unfold dist_reduce. apply Z.eqb_neq in Hr. by rewrite Hr.
Qed.

(** C1. With two or more workers, on rank 0: the names are sorted, the
    values are stacked in that order, one reduce-sum collective is
    issued on that tensor, and the sums are divided by the world size.
    When every worker holds a dictionary of the same names, the value
    returned under each name is the average of the workers' values for
    that name. *)
Theorem reduce_loss_dict_rank0_average
    loss_dict (peer_dicts : list (dict T)) s :
  (2 <= world_size)%Z -> rank = 0%Z -> loss_dict <> [] ->
  world_size = Z.of_nat (length (loss_dict :: peer_dicts)) ->
  Forall (fun d => keys d ≡ₚ keys loss_dict) peer_dicts ->
  peer_tensors dist (runtime s) = stacked <$> peer_dicts ->
  exists reduced_losses,
    reduce_loss_dict loss_dict s
      = (after_reduce (stacked loss_dict) s, Ok reduced_losses)
    /\ reduced_losses
       = zip (sorted (keys loss_dict))
             (idiv tdiv world_size
                (reduce_sum tadd (stacked <$> peer_dicts) (stacked loss_dict)))
    /\ keys reduced_losses = sorted (keys loss_dict)
    /\ forall k v vs,
         getitem loss_dict k = Some v ->
         Forall2 (fun d x => getitem d k = Some x) peer_dicts vs ->
         getitem reduced_losses k = Some (average tadd tdiv tzero (v :: vs)).
Proof.
  intros Hws Hr Hd Hn Hkeys Hpeers.
  rewrite reduce_loss_dict_reducing by done.
  unfold dist_reduce. rewrite Hr, Hpeers. simpl.
  eexists. split; [done|]. split; [done|]. split.
  { apply keys_zip. rewrite (idiv_length tdiv), (reduce_sum_length tadd).
    rewrite stacked_length, sorted_length. unfold keys.
    by rewrite length_fmap. }
  intros k v vs Hv Hvs.
  set (ks := sorted (keys loss_dict)).
  assert (Hstack : stacked <$> peer_dicts
                   = (fun g => g <$> ks) <$> (item tzero <$> peer_dicts)).
  { rewrite <- list_fmap_compose. apply Forall_fmap_ext.
    eapply Forall_impl; [exact Hkeys|]. intros d Hp. simpl.
    rewrite (stacked_item tzero). unfold ks.
    by rewrite (sorted_unique _ _ Hp). }
  rewrite Hstack, (stacked_item tzero loss_dict).
  fold ks. rewrite reduce_sum_fmap. unfold idiv.
  rewrite <- list_fmap_compose.
  rewrite getitem_zip_fmap.
  2:{ unfold ks. apply sorted_elem_of. by eapply getitem_elem_of. }
  f_equal. simpl. unfold average.
  rewrite Hn. f_equal. 2:{ simpl. by rewrite (Forall2_length _ _ _ Hvs). }
  unfold item at 2. rewrite Hv. simpl. f_equal.
  rewrite <- list_fmap_compose.
  clear -Hvs. induction Hvs as [|d x ds xs Hx _ IH]; [done|].
  rewrite fmap_cons, IH. simpl. unfold item. by rewrite Hx.
Qed.

(** X9. With two or more workers the outcome of [reduce_loss_dict] does
    not depend on the order in which the model inserted its losses: two
    dictionaries with the same entries give the same collective and the
    same returned mapping. *)
Theorem reduce_loss_dict_order_independent (d1 d2 : dict T) s :
  (2 <= world_size)%Z -> NoDup (keys d1) -> d1 ≡ₚ d2 ->
  reduce_loss_dict d1 s = reduce_loss_dict d2 s.
Proof.
  intros Hws Hnd Hp. destruct d1 as [|kv d1].
  { by apply Permutation_nil_l in Hp as ->. }
  assert (Hd2 : d2 <> []).
  { intros ->. by apply Permutation_nil_r in Hp. }
  rewrite !reduce_loss_dict_reducing by done.
  assert (Hk : keys (kv :: d1) ≡ₚ keys d2) by (unfold keys; by rewrite Hp).
  by rewrite (stacked_perm _ _ Hnd Hp), (sorted_unique _ _ Hk).
Qed.
End ReduceLossDict.

(** ** [do_train] *)

Section DoTrain.
Context {T : Type}.
Variable tadd : T -> T -> T.
Variable tdiv : T -> Z -> T.
Variable tzero : T.
Variable scratch : Z -> list (list T) -> list T -> nat -> T -> T.
Context {RT Img Tgt Aux Dev E MetricLogger : Type}.
Variable dist : @ProcessGroup T RT.
Variable backward : T -> RT -> RT.
Variable to_img : Dev -> Img -> Img.
Variable to_tgt : Dev -> Tgt -> Tgt.
Variable new_MetricLogger : string -> MetricLogger.
Variable meters_update : MetricLogger -> dict T -> MetricLogger.

Local Abbreviation state := (@state T RT Img Tgt MetricLogger).
Local Abbreviation event := (@event T Img Tgt MetricLogger).
Local Abbreviation Model := (@Model T RT Img Tgt E).
Local Abbreviation batch := (@batch Img Tgt Aux).
Local Abbreviation reduce_loss_dict :=
  (@reduce_loss_dict T tadd tdiv scratch RT Img Tgt MetricLogger dist).
Local Abbreviation after_reduce :=
  (@after_reduce T RT Img Tgt MetricLogger dist).
Local Abbreviation update :=
  (@update T RT Img Tgt MetricLogger meters_update).
Local Abbreviation train_iteration :=
  (@train_iteration T tadd tdiv tzero scratch RT Img Tgt Aux Dev E MetricLogger
     dist backward to_img to_tgt meters_update).
Local Abbreviation train_loop :=
  (@train_loop T tadd tdiv tzero scratch RT Img Tgt Aux Dev E MetricLogger
     dist backward to_img to_tgt meters_update).
Local Abbreviation test_iteration :=
  (@test_iteration T tadd tdiv tzero scratch RT Img Tgt Aux Dev E MetricLogger
     dist to_img to_tgt meters_update).
Local Abbreviation test_loop :=
  (@test_loop T tadd tdiv tzero scratch RT Img Tgt Aux Dev E MetricLogger
     dist to_img to_tgt meters_update).
Local Abbreviation do_train :=
  (@do_train T tadd tdiv tzero scratch RT Img Tgt Aux Dev E MetricLogger
     dist backward to_img to_tgt new_MetricLogger meters_update).
Local Abbreviation world_size := (get_world_size dist).
Local Abbreviation py_sum := (py_sum tadd tzero).

Implicit Types (model : Model) (optimizer : @Optimizer RT)
  (scheduler : @Scheduler RT) (device : Dev) (s : state)
  (loss_dict : dict T) (b : batch) (meters : MetricLogger).

(** The state in which the forward pass of a training iteration starts,
    and the one it leaves. *)
Lemma train_iteration_unfold model optimizer scheduler device max_iter i
    images targets aux meters s :
  train_iteration model optimizer scheduler device max_iter i
                  (images, targets, aux) meters s
  = let images' := to_img device images in
    let targets' := map (to_tgt device) targets in
    let (rt, r) := model_call model images' targets'
                     (scheduler_step scheduler (runtime s)) in
    let s2 := mkState rt (trace s ++ [EvSchedulerStep; EvForward images' targets'])
                      (<["iteration" := (i + 1)%Z]> (arguments s)) in
    match r with
    | inl _ => (s2, Ok meters)
    | inr loss_dict =>
        match reduce_loss_dict loss_dict s2 with
        | (s3, Raise e) => (s3, Raise e)
        | (s3, Ok reduced) =>
            if bool_decide ("loss" ∈ keys reduced) then (s3, Raise TypeError)
            else
              let meters' := meters_update meters
                               (("loss", py_sum (values reduced)) :: reduced) in
              let s4 := mkState (zero_grad optimizer (runtime s3))
                                (trace s3 ++ [EvZeroGrad]) (arguments s3) in
              match loss_dict with
              | [] => (s4, Raise AttributeError)
              | _ =>
                  let losses := py_sum (values loss_dict) in
                  (mkState (optimizer_step optimizer
                              (backward losses (runtime s4)))
                           (trace s3 ++ [EvZeroGrad; EvBackward losses; EvOptimizerStep]
                              ++ (if (((i + 1) mod 10 =? 0) || (i + 1 =? max_iter))%Z
                                  then [EvLog (TrainMeters meters')] else []))
                           (arguments s3),
                   Ok meters')
              end
        end
    end.
Proof.
  unfold train_iteration, bind, set_argument, call, forward, ret. simpl.
  rewrite <- (app_assoc (trace s)). simpl.
  destruct (model_call model _ _ _) as [rt [e|loss_dict]]; [done|].
  destruct (reduce_loss_dict loss_dict _) as [s3 [reduced|e]]; [|done].
  unfold update, raise, ret.
  destruct (bool_decide _); [done|].
  destruct loss_dict as [|kv d]; [done|]. simpl.
  destruct (_ || _); simpl; by rewrite <- !app_assoc.
Qed.

Lemma test_iteration_unfold model device images targets aux meters s :
  test_iteration model device (images, targets, aux) meters s
  = let images' := to_img device images in
    let targets' := map (to_tgt device) targets in
    let (rt, r) := model_call model images' targets' (runtime s) in
    let s2 := mkState rt (trace s ++ [EvForward images' targets']) (arguments s) in
    match r with
    | inl _ => (s2, Ok meters)
    | inr loss_dict =>
        match reduce_loss_dict loss_dict s2 with
        | (s3, Raise e) => (s3, Raise e)
        | (s3, Ok reduced) =>
            if bool_decide ("loss" ∈ keys reduced) then (s3, Raise TypeError)
            else (s3, Ok (meters_update meters
                            (("loss", py_sum (values reduced)) :: reduced)))
        end
    end.
Proof.
  unfold test_iteration, bind, forward, ret. simpl.
  destruct (model_call model _ _ _) as [rt [e|loss_dict]]; [done|].
  destruct (reduce_loss_dict loss_dict _) as [s3 [reduced|e]]; [|done].
  unfold update, raise, ret. by destruct (bool_decide _).
Qed.

(** What [reduce_loss_dict] does to the state, in every case. *)
Lemma reduce_loss_dict_state loss_dict s :
  (reduce_loss_dict loss_dict s).1
  = if (world_size <? 2)%Z then s
    else match loss_dict with
         | [] => s
         | _ => after_reduce (stacked loss_dict) s
         end.
Proof.
  destruct (Z.ltb_spec world_size 2) as [Hlt|Hge].
  - by rewrite single_worker_identity.
  - destruct loss_dict as [|kv d].
    + by rewrite reduce_loss_dict_empty.
    + by rewrite reduce_loss_dict_reducing.
Qed.

Lemma reduced_has_loss loss_dict s s' reduced :
  reduce_loss_dict loss_dict s = (s', Ok reduced) ->
  "loss" ∈ keys reduced <-> "loss" ∈ keys loss_dict.
Proof.
  destruct (Z.ltb_spec world_size 2) as [Hlt|Hge]; intros H.
  - rewrite single_worker_identity in H by done. by simplify_eq.
  - destruct loss_dict as [|kv d].
    + rewrite reduce_loss_dict_empty in H by done. congruence.
    + destruct (reduced_keys tadd tdiv scratch dist (kv :: d) s Hge)
        as (s1 & r1 & H1 & Hk); [done|].
      rewrite H in H1. simplify_eq. rewrite Hk. apply sorted_elem_of.
Qed.

Lemma count_calls_app (p : event -> bool) (tr1 tr2 : list event) :
  count_calls p (tr1 ++ tr2) = (count_calls p tr1 + count_calls p tr2)%nat.
Proof. unfold count_calls. by rewrite List.filter_app, length_app. Qed.

(** [reduce_loss_dict] only ever appends to the trace, and what it
    appends is at most the one collective. *)
Lemma reduce_loss_dict_frame loss_dict s :
  exists evs : list event,
    trace (reduce_loss_dict loss_dict s).1 = trace s ++ evs
    /\ arguments (reduce_loss_dict loss_dict s).1 = arguments s
    /\ count_calls is_scheduler_step evs = 0%nat
    /\ count_calls is_log evs = 0%nat
    /\ count_calls is_reduce evs
       = collectives_due (E:=E) world_size (inr loss_dict).
Proof.
  rewrite reduce_loss_dict_state. simpl.
  destruct (world_size <? 2)%Z.
  { exists []. by rewrite app_nil_r. }
  destruct loss_dict as [|kv d].
  { exists []. by rewrite app_nil_r. }
  by eexists [_].
Qed.

(** Every training iteration, whatever becomes of it, first stores the
    one-based index and steps the scheduler, then attempts the forward
    pass; nothing later touches the index or the scheduler. *)
Lemma train_iteration_frame model optimizer scheduler device max_iter i
    images targets aux meters s :
  let images' := to_img device images in
  let targets' := map (to_tgt device) targets in
  let out := train_iteration model optimizer scheduler device max_iter i
                             (images, targets, aux) meters s in
  exists evs : list event,
    trace out.1 = trace s ++ [EvSchedulerStep; EvForward images' targets'] ++ evs
    /\ arguments out.1 = <["iteration" := (i + 1)%Z]> (arguments s)
    /\ count_calls is_scheduler_step evs = 0%nat
    /\ count_calls is_reduce evs
       = collectives_due world_size
           (model_call model images' targets'
              (scheduler_step scheduler (runtime s))).2.
Proof.
  intros images' targets' out. subst out.
  rewrite train_iteration_unfold. fold images' targets'. cbv zeta.
  destruct (model_call model images' targets' _) as [rt [e|loss_dict]].
  { exists []. by rewrite app_nil_r. }
  set (s2 := mkState rt _ _).
  destruct (reduce_loss_dict_frame loss_dict s2)
    as (evs & Htr & Harg & Hsched & _ & Hred).
  destruct (reduce_loss_dict loss_dict s2) as [s3 [reduced|e]];
    simpl in Htr, Harg.
  2:{ exists evs. simpl. rewrite Htr, Harg. subst s2. simpl.
      by rewrite <- app_assoc. }
  destruct (bool_decide _).
  { exists evs. simpl. rewrite Htr, Harg. subst s2. simpl.
    by rewrite <- app_assoc. }
  destruct loss_dict as [|kv d].
  { exists (evs ++ [EvZeroGrad]). simpl. rewrite Htr, Harg. subst s2. simpl.
    rewrite !count_calls_app, Hsched, Hred. simpl.
    split; [by rewrite <- !app_assoc|]. split; [done|].
    split; [done|]. destruct (world_size <? 2)%Z; done. }
  eexists (evs ++ [EvZeroGrad; EvBackward _; EvOptimizerStep] ++ _).
  simpl. rewrite Htr, Harg. subst s2. simpl.
  rewrite !count_calls_app, Hsched, Hred.
  split; [by rewrite <- !app_assoc|]. split; [done|].
  destruct (_ || _); simpl; split; try done; lia.
Qed.

Lemma test_iteration_frame model device images targets aux meters s :
  let images' := to_img device images in
  let targets' := map (to_tgt device) targets in
  let out := test_iteration model device (images, targets, aux) meters s in
  exists evs : list event,
    trace out.1 = trace s ++ [EvForward images' targets'] ++ evs
    /\ arguments out.1 = arguments s
    /\ count_calls is_scheduler_step evs = 0%nat
    /\ count_calls is_reduce evs
       = collectives_due world_size
           (model_call model images' targets' (runtime s)).2.
Proof.
  intros images' targets' out. subst out.
  rewrite test_iteration_unfold. fold images' targets'. cbv zeta.
  destruct (model_call model images' targets' _) as [rt [e|loss_dict]].
  { exists []. by rewrite app_nil_r. }
  set (s2 := mkState rt _ _).
  destruct (reduce_loss_dict_frame loss_dict s2)
    as (evs & Htr & Harg & Hsched & _ & Hred).
  destruct (reduce_loss_dict loss_dict s2) as [s3 [reduced|e]];
    simpl in Htr, Harg.
  2:{ exists evs. simpl. rewrite Htr, Harg. subst s2. simpl.
      by rewrite <- app_assoc. }
  destruct (bool_decide _); exists evs; simpl; rewrite Htr, Harg;
    subst s2; simpl; by rewrite <- app_assoc.
Qed.

Lemma train_loop_cons model optimizer scheduler device max_iter i b rest meters s :
  train_loop model optimizer scheduler device max_iter i (b :: rest) meters s
  = match train_iteration model optimizer scheduler device max_iter i b meters s with
    | (s', Ok meters') =>
        train_loop model optimizer scheduler device max_iter (i + 1)%Z rest meters' s'
    | (s', Raise e) => (s', Raise e)
    end.
Proof. done. Qed.

Lemma test_loop_cons model device b rest meters s :
  test_loop model device (b :: rest) meters s
  = match test_iteration model device b meters s with
    | (s', Ok meters') => test_loop model device rest meters' s'
    | (s', Raise e) => (s', Raise e)
    end.
Proof. done. Qed.

(** C4. When the forward pass raises on a batch, in the training loop or
    in the test loop, the loop goes on with the next batch: the rest of
    the loader is processed with the same metric accumulator, nothing
    is raised, and the only calls recorded for the dropped batch are the
    ones made before the failure (the scheduler step, in training, and the
    forward pass itself): no log line, no metric update. *)
Theorem forward_exception_drops_batch
    model optimizer scheduler device max_iter i
    images targets aux rest meters s rt e
    images_t targets_t aux_t rest_t meters_t (s_t : state) rt_t e_t :
  model_call model (to_img device images) (map (to_tgt device) targets)
             (scheduler_step scheduler (runtime s)) = (rt, inl e) ->
  model_call model (to_img device images_t) (map (to_tgt device) targets_t)
             (runtime s_t) = (rt_t, inl e_t) ->
  train_loop model optimizer scheduler device max_iter i
             ((images, targets, aux) :: rest) meters s
  = train_loop model optimizer scheduler device max_iter (i + 1)%Z rest meters
      (mkState rt
         (trace s ++ [EvSchedulerStep;
                      EvForward (to_img device images) (map (to_tgt device) targets)])
         (<["iteration" := (i + 1)%Z]> (arguments s)))
  /\ test_loop model device ((images_t, targets_t, aux_t) :: rest_t) meters_t s_t
     = test_loop model device rest_t meters_t
         (mkState rt_t
            (trace s_t ++ [EvForward (to_img device images_t)
                                      (map (to_tgt device) targets_t)])
            (arguments s_t)).
Proof.
  intros Htrain Htest. split.
  - rewrite train_loop_cons, train_iteration_unfold. cbv zeta.
    by rewrite Htrain.
  - rewrite test_loop_cons, test_iteration_unfold. cbv zeta.
    by rewrite Htest.
Qed.

(** C5, amended. An iteration of either loop issues at most one
    collective reduce: exactly one when its forward pass succeeded with
    something to stack and there are two or more workers, none when the
    batch was dropped or when there are fewer than two workers. *)
Theorem iteration_collectives model optimizer scheduler device max_iter i
    images targets aux meters s :
  let images' := to_img device images in
  let targets' := map (to_tgt device) targets in
  (exists evs : list event,
      trace (train_iteration model optimizer scheduler device max_iter i
               (images, targets, aux) meters s).1 = trace s ++ evs
      /\ count_calls is_reduce evs
         = collectives_due world_size
             (model_call model images' targets'
                (scheduler_step scheduler (runtime s))).2)
  /\ (exists evs : list event,
        trace (test_iteration model device (images, targets, aux) meters s).1
          = trace s ++ evs
        /\ count_calls is_reduce evs
           = collectives_due world_size
               (model_call model images' targets' (runtime s)).2).
Proof.
  intros images' targets'. split.
  - destruct (train_iteration_frame model optimizer scheduler device max_iter i
                images targets aux meters s) as (evs & Htr & _ & _ & Hred).
    eexists. split; [exact Htr|]. by rewrite count_calls_app.
  - destruct (test_iteration_frame model device images targets aux meters s)
      as (evs & Htr & _ & _ & Hred).
    eexists. split; [exact Htr|]. by rewrite count_calls_app.
Qed.

(** C6. A training batch whose forward pass succeeds is optimised on:
    after the reduction and the metric update, the recorded calls are
    [zero_grad], [backward] on the sum of the model's own (unreduced)
    losses, and the optimizer's [step], in that order; the reduced
    dictionary only reaches the metric accumulator. *)
Theorem train_iteration_optimizes model optimizer scheduler device max_iter i
    images targets aux meters s rt loss_dict :
  let images' := to_img device images in
  let targets' := map (to_tgt device) targets in
  model_call model images' targets' (scheduler_step scheduler (runtime s))
    = (rt, inr loss_dict) ->
  loss_dict <> [] ->
  "loss" ∉ keys loss_dict ->
  exists s_r loss_dict_reduced,
    reduce_loss_dict loss_dict
      (mkState rt (trace s ++ [EvSchedulerStep; EvForward images' targets'])
               (<["iteration" := (i + 1)%Z]> (arguments s)))
      = (s_r, Ok loss_dict_reduced)
    /\ let losses := py_sum (values loss_dict) in
       let losses_reduced := py_sum (values loss_dict_reduced) in
       let meters' :=
         meters_update meters (("loss", losses_reduced) :: loss_dict_reduced) in
       train_iteration model optimizer scheduler device max_iter i
                       (images, targets, aux) meters s
       = (mkState
            (optimizer_step optimizer
               (backward losses (zero_grad optimizer (runtime s_r))))
            (trace s_r ++ [EvZeroGrad; EvBackward losses; EvOptimizerStep]
               ++ (if (((i + 1) mod 10 =? 0) || (i + 1 =? max_iter))%Z
                   then [EvLog (TrainMeters meters')] else []))
            (arguments s_r),
          Ok meters').
Proof.
  intros images' targets' Hfwd Hd Hloss.
  rewrite train_iteration_unfold. fold images' targets'. cbv zeta.
  rewrite Hfwd. set (s2 := mkState rt _ _).
  destruct (reduce_loss_dict_cases tadd tdiv scratch dist loss_dict s2)
    as [(s_r & reduced & Hr)|(Hnil & _)]; [|done].
  exists s_r, reduced. split; [done|]. rewrite Hr.
  rewrite bool_decide_eq_false_2.
  2:{ by rewrite (reduced_has_loss _ _ _ _ Hr). }
  by destruct loss_dict.
Qed.

Lemma do_train_unfold model (train_data_loader test_data_loader : list batch)
    optimizer scheduler device (args : gmap string Z) rt :
  do_train model train_data_loader test_data_loader optimizer scheduler device args rt
  = match args !! "iteration" with
    | None => (mkState rt [EvLog StartTraining] args, Raise (KeyError "iteration"))
    | Some start_iter =>
        let max_iter := Z.of_nat (length train_data_loader) in
        match train_loop model optimizer scheduler device max_iter start_iter
                train_data_loader (new_MetricLogger "  ")
                (mkState (model_train model rt)
                         [EvLog StartTraining; EvModelTrain; EvClock] args) with
        | (s1, Raise e) => (s1, Raise e)
        | (s1, Ok train_meters) =>
            match test_loop model device test_data_loader (new_MetricLogger "  ") s1 with
            | (s2, Raise e) => (s2, Raise e)
            | (s2, Ok test_meters) =>
                if (max_iter =? 0)%Z
                then (mkState (runtime s2)
                        (trace s2 ++ [EvLog (TestMeters test_meters); EvClock])
                        (arguments s2),
                      Raise ZeroDivisionError)
                else (mkState (runtime s2)
                        (trace s2 ++ [EvLog (TestMeters test_meters); EvClock;
                                      EvLog TotalTime])
                        (arguments s2),
                      Ok (train_meters, test_meters))
            end
        end
    end.
Proof.
  unfold do_train, do_train_body, bind, log_debug, time_time, call,
    get_argument, raise, ret. simpl.
  destruct (args !! "iteration") as [start_iter|]; [|done].
  destruct (train_loop _ _ _ _ _ _ _ _ _) as [s1 [train_meters|e]]; [|done].
  destruct (test_loop _ _ _ _ _) as [s2 [test_meters|e]]; [|done].
  destruct (_ =? 0)%Z; simpl; by rewrite <- !app_assoc.
Qed.

Lemma train_iteration_returns model optimizer scheduler device max_iter i b meters s :
  usable_losses model ->
  exists s' meters',
    train_iteration model optimizer scheduler device max_iter i b meters s
    = (s', Ok meters').
Proof.
  intros Hgood. destruct b as [[images targets] aux].
  rewrite train_iteration_unfold. cbv zeta.
  destruct (model_call model _ _ _) as [rt [e|loss_dict]] eqn:Hfwd; [eauto|].
  destruct (Hgood _ _ _ _ _ Hfwd) as [Hd Hloss].
  set (s2 := mkState rt _ _).
  destruct (reduce_loss_dict_cases tadd tdiv scratch dist loss_dict s2)
    as [(s_r & reduced & Hr)|(Hnil & _)]; [|done].
  rewrite Hr. rewrite bool_decide_eq_false_2.
  2:{ by rewrite (reduced_has_loss _ _ _ _ Hr). }
  destruct loss_dict; [done|eauto].
Qed.

Lemma test_iteration_returns model device b meters s :
  usable_losses model ->
  exists s' meters', test_iteration model device b meters s = (s', Ok meters').
Proof.
  intros Hgood. destruct b as [[images targets] aux].
  rewrite test_iteration_unfold. cbv zeta.
  destruct (model_call model _ _ _) as [rt [e|loss_dict]] eqn:Hfwd; [eauto|].
  destruct (Hgood _ _ _ _ _ Hfwd) as [Hd Hloss].
  set (s2 := mkState rt _ _).
  destruct (reduce_loss_dict_cases tadd tdiv scratch dist loss_dict s2)
    as [(s_r & reduced & Hr)|(Hnil & _)]; [|done].
  rewrite Hr. rewrite bool_decide_eq_false_2; [eauto|].
  by rewrite (reduced_has_loss _ _ _ _ Hr).
Qed.

Lemma train_loop_returns model optimizer scheduler device max_iter loader :
  usable_losses model ->
  forall i meters s,
  exists s' meters',
    train_loop model optimizer scheduler device max_iter i loader meters s
    = (s', Ok meters').
Proof.
  intros Hgood. induction loader as [|b rest IH]; intros i meters s.
  - by eexists _, _.
  - rewrite train_loop_cons.
    destruct (train_iteration_returns model optimizer scheduler device
                max_iter i b meters s Hgood) as (s1 & m1 & ->).
    apply IH.
Qed.

Lemma test_loop_returns model device loader :
  usable_losses model ->
  forall meters s,
  exists s' meters', test_loop model device loader meters s = (s', Ok meters').
Proof.
  intros Hgood. induction loader as [|b rest IH]; intros meters s.
  - by eexists _, _.
  - rewrite test_loop_cons.
    destruct (test_iteration_returns model device b meters s Hgood)
      as (s1 & m1 & ->).
    apply IH.
Qed.

(** C7. [do_train] takes a model, the training and the test loader, an
    optimizer, a scheduler, a device and the arguments mapping, and
    returns a pair: first the accumulator the training loop filled, then
    the one the test loop filled.  (It returns when the training loader
    is not empty, [arguments] has an [iteration] entry and the model's
    loss dictionaries are usable.) *)
Theorem do_train_returns_meters model (train_data_loader test_data_loader : list batch)
    optimizer scheduler device (args : gmap string Z) rt start_iter :
  train_data_loader <> [] ->
  args !! "iteration" = Some start_iter ->
  usable_losses model ->
  exists s1 s2 s3 train_meters test_meters,
    train_loop model optimizer scheduler device
               (Z.of_nat (length train_data_loader)) start_iter
               train_data_loader (new_MetricLogger "  ")
               (mkState (model_train model rt)
                        [EvLog StartTraining; EvModelTrain; EvClock] args)
      = (s1, Ok train_meters)
    /\ test_loop model device test_data_loader (new_MetricLogger "  ") s1
       = (s2, Ok test_meters)
    /\ do_train model train_data_loader test_data_loader
                optimizer scheduler device args rt
       = (s3, Ok (train_meters, test_meters)).
Proof.
  intros Hne Hit Hgood. rewrite do_train_unfold, Hit. cbv zeta.
  destruct (train_loop_returns model optimizer scheduler device
              (Z.of_nat (length train_data_loader)) train_data_loader Hgood
              start_iter (new_MetricLogger "  ")
              (mkState (model_train model rt)
                       [EvLog StartTraining; EvModelTrain; EvClock] args))
    as (s1 & tm & Htrain).
  destruct (test_loop_returns model device test_data_loader Hgood
              (new_MetricLogger "  ") s1) as (s2 & sm & Htest).
  rewrite Htrain, Htest.
  destruct (Z.eqb_spec (Z.of_nat (length train_data_loader)) 0) as [H0|_].
  { destruct train_data_loader; [done|simpl in H0; lia]. }
  by eexists s1, s2, _, tm, sm.
Qed.

Lemma train_loop_counter model optimizer scheduler device max_iter loader :
  forall i meters s s' meters',
    train_loop model optimizer scheduler device max_iter i loader meters s
      = (s', Ok meters') ->
    arguments s !! "iteration" = Some i ->
    arguments s'
      = <["iteration" := (i + Z.of_nat (length loader))%Z]> (arguments s)
    /\ count_calls is_scheduler_step (trace s')
       = (count_calls is_scheduler_step (trace s) + length loader)%nat.
Proof.
  induction loader as [|b rest IH]; intros i meters s s' meters' Hloop Hi.
  - simpl in Hloop. unfold ret in Hloop. simplify_eq. simpl.
    rewrite Z.add_0_r, insert_id by done. split; [done|lia].
  - rewrite train_loop_cons in Hloop. destruct b as [[images targets] aux].
    destruct (train_iteration_frame model optimizer scheduler device max_iter i
                images targets aux meters s) as (evs & Htr & Harg & Hsched & _).
    destruct (train_iteration _ _ _ _ _ _ _ _ _) as [s1 [m1|e]]; [|done].
    cbn [fst] in Htr, Harg.
    destruct (IH _ _ _ _ _ Hloop) as [Ha Hc].
    { rewrite Harg. apply lookup_insert_eq. }
    split.
    + rewrite Ha, Harg, insert_insert_eq. f_equal. simpl length. lia.
    + rewrite Hc, Htr, !count_calls_app, Hsched. simpl. lia.
Qed.

Lemma test_loop_counter model device loader :
  forall meters s s' r,
    test_loop model device loader meters s = (s', r) ->
    arguments s' = arguments s
    /\ count_calls is_scheduler_step (trace s')
       = count_calls is_scheduler_step (trace s).
Proof.
  induction loader as [|b rest IH]; intros meters s s' r Hloop.
  - simpl in Hloop. unfold ret in Hloop. by simplify_eq.
  - rewrite test_loop_cons in Hloop. destruct b as [[images targets] aux].
    destruct (test_iteration_frame model device images targets aux meters s)
      as (evs & Htr & Harg & Hsched & _).
    destruct (test_iteration _ _ _ _ _) as [s1 [m1|e]]; cbn [fst] in Htr, Harg.
    + destruct (IH _ _ _ _ Hloop) as [Ha Hc]. split; [congruence|].
      rewrite Hc, Htr, !count_calls_app, Hsched. simpl. lia.
    + injection Hloop as <- _. split; [done|].
      rewrite Htr, !count_calls_app, Hsched. simpl. lia.
Qed.

(** C10. Every training iteration stores its one-based index in
    [arguments["iteration"]] and steps the scheduler before it attempts
    the forward pass, and nothing later in the iteration undoes either,
    whether the batch is dropped or not.  So when [do_train] returns,
    [arguments["iteration"]] is the starting iteration plus the number of
    training batches, and the scheduler was stepped once per training
    batch, dropped batches included. *)
Theorem iteration_counter_counts_every_batch
    model (train_data_loader test_data_loader : list batch)
    optimizer scheduler device (args : gmap string Z) rt start_iter s' r
    max_iter i images targets aux meters s :
  args !! "iteration" = Some start_iter ->
  do_train model train_data_loader test_data_loader
           optimizer scheduler device args rt = (s', Ok r) ->
  (let out := train_iteration model optimizer scheduler device max_iter i
                              (images, targets, aux) meters s in
   arguments out.1 = <["iteration" := (i + 1)%Z]> (arguments s)
   /\ exists evs : list event,
        trace out.1
        = trace s ++ [EvSchedulerStep;
                      EvForward (to_img device images)
                                (map (to_tgt device) targets)] ++ evs
        /\ count_calls is_scheduler_step evs = 0%nat)
  /\ arguments s'
     = <["iteration" := (start_iter + Z.of_nat (length train_data_loader))%Z]> args
  /\ count_calls is_scheduler_step (trace s') = length train_data_loader.
Proof.
  intros Hit Hrun. split.
  { destruct (train_iteration_frame model optimizer scheduler device max_iter i
                images targets aux meters s) as (evs & Htr & Harg & Hsched & _).
    split; [exact Harg|]. by exists evs. }
  rewrite do_train_unfold, Hit in Hrun. cbv zeta in Hrun.
  destruct (train_loop _ _ _ _ _ _ _ _ _) as [s1 [tm|e]] eqn:Htrain; [|done].
  destruct (test_loop _ _ _ _ _) as [s2 [sm|e]] eqn:Htest; [|done].
  apply train_loop_counter in Htrain as [Ha Hc]; [|done].
  apply test_loop_counter in Htest as [Ha' Hc'].
  destruct (_ =? 0)%Z; [done|]. simplify_eq. simpl.
  simpl in Ha. split; [by rewrite Ha', Ha|].
  rewrite count_calls_app, Hc', Hc. unfold count_calls. simpl. lia.
Qed.

(** *** Further behaviour of the two loops *)

Lemma reduce_loss_dict_events loss_dict s :
  exists evs : list event,
    trace (reduce_loss_dict loss_dict s).1 = trace s ++ evs
    /\ arguments (reduce_loss_dict loss_dict s).1 = arguments s
    /\ (evs = [] \/ exists t, evs = [EvReduce t]).
Proof.
  rewrite reduce_loss_dict_state.
  destruct (world_size <? 2)%Z.
  { exists []. rewrite app_nil_r. auto. }
  destruct loss_dict as [|kv d].
  { exists []. rewrite app_nil_r. auto. }
  eexists [_]. simpl. eauto.
Qed.

(** The calls of one training iteration after its forward pass: the
    gradient step is all or nothing when the iteration returns, and at
    most a lone [zero_grad] when it raises. *)
Lemma train_iteration_events model optimizer scheduler device max_iter i
    images targets aux meters s :
  let out := train_iteration model optimizer scheduler device max_iter i
                             (images, targets, aux) meters s in
  exists evs : list event,
    trace out.1 = trace s ++ [EvSchedulerStep;
                              EvForward (to_img device images)
                                        (map (to_tgt device) targets)] ++ evs
    /\ count_calls is_forward evs = 0%nat
    /\ count_calls is_model_train evs = 0%nat
    /\ count_calls is_backward evs = count_calls is_optimizer_step evs
    /\ (count_calls is_optimizer_step evs <= 1)%nat
    /\ (forall meters', out.2 = Ok meters' ->
          count_calls is_zero_grad evs = count_calls is_optimizer_step evs).
Proof.
  intros out. subst out. rewrite train_iteration_unfold. cbv zeta.
  destruct (model_call model _ _ _) as [rt [e|loss_dict]].
  { exists []. rewrite app_nil_r. repeat split; auto. }
  set (s2 := mkState rt _ _).
  destruct (reduce_loss_dict_events loss_dict s2) as (evs & Htr & _ & Hevs).
  destruct (reduce_loss_dict loss_dict s2) as [s3 [reduced|e]];
    cbn [fst] in Htr.
  2:{ exists evs. cbn [fst snd]. rewrite Htr. subst s2. cbn [trace].
      rewrite <- app_assoc.
      destruct Hevs as [->|[t ->]]; repeat split; auto; done. }
  destruct (bool_decide _).
  { exists evs. cbn [fst snd]. rewrite Htr. subst s2. cbn [trace].
    rewrite <- app_assoc.
    destruct Hevs as [->|[t ->]]; repeat split; auto; done. }
  destruct loss_dict as [|kv d].
  { exists (evs ++ [EvZeroGrad]). cbn [fst snd trace]. rewrite Htr. subst s2.
    cbn [trace]. rewrite <- !app_assoc.
    destruct Hevs as [->|[t ->]]; repeat split; auto; done. }
  eexists (evs ++ [EvZeroGrad; EvBackward _; EvOptimizerStep] ++ _).
  cbn [fst snd trace]. rewrite Htr. subst s2. cbn [trace].
  rewrite <- !app_assoc. split; [done|].
  destruct Hevs as [->|[t ->]]; destruct (_ || _); repeat split; auto.
Qed.

Lemma test_iteration_events model device images targets aux meters s :
  let out := test_iteration model device (images, targets, aux) meters s in
  exists evs : list event,
    trace out.1 = trace s ++ [EvForward (to_img device images)
                                        (map (to_tgt device) targets)] ++ evs
    /\ arguments out.1 = arguments s
    /\ (evs = [] \/ exists t, evs = [EvReduce t]).
Proof.
  intros out. subst out. rewrite test_iteration_unfold. cbv zeta.
  destruct (model_call model _ _ _) as [rt [e|loss_dict]].
  { exists []. rewrite app_nil_r. auto. }
  set (s2 := mkState rt _ _).
  destruct (reduce_loss_dict_events loss_dict s2) as (evs & Htr & Harg & Hevs).
  destruct (reduce_loss_dict loss_dict s2) as [s3 [reduced|e]];
    cbn [fst] in Htr, Harg.
  2:{ exists evs. cbn [fst]. rewrite Htr, Harg. subst s2. cbn [trace arguments].
      by rewrite <- app_assoc. }
  destruct (bool_decide _); exists evs; cbn [fst]; rewrite Htr, Harg;
    subst s2; cbn [trace arguments]; by rewrite <- app_assoc.
Qed.

Lemma train_loop_counts model optimizer scheduler device max_iter loader :
  forall i meters s s' meters',
    train_loop model optimizer scheduler device max_iter i loader meters s
      = (s', Ok meters') ->
    exists n : nat,
      (n <= length loader)%nat
      /\ count_calls is_zero_grad (trace s')
         = (count_calls is_zero_grad (trace s) + n)%nat
      /\ count_calls is_backward (trace s')
         = (count_calls is_backward (trace s) + n)%nat
      /\ count_calls is_optimizer_step (trace s')
         = (count_calls is_optimizer_step (trace s) + n)%nat
      /\ count_calls is_forward (trace s')
         = (count_calls is_forward (trace s) + length loader)%nat
      /\ count_calls is_model_train (trace s')
         = count_calls is_model_train (trace s).
Proof.
  induction loader as [|b rest IH]; intros i meters s s' meters' Hloop.
  - simpl in Hloop. unfold ret in Hloop. simplify_eq. exists 0%nat.
    simpl. repeat split; lia.
  - rewrite train_loop_cons in Hloop. destruct b as [[images targets] aux].
    destruct (train_iteration_events model optimizer scheduler device max_iter i
                images targets aux meters s)
      as (evs & Htr & Hfwd & Hmt & Hbw & Hle & Hzg).
    destruct (train_iteration _ _ _ _ _ _ _ _ _) as [s1 [m1|e]]; [|done].
    cbn [fst snd] in Htr, Hzg. specialize (Hzg m1 eq_refl).
    destruct (IH _ _ _ _ _ Hloop) as (n & Hn & Hz & Hb & Ho & Hf & Hm).
    exists (count_calls is_optimizer_step evs + n)%nat.
    rewrite Hz, Hb, Ho, Hf, Hm, Htr, !count_calls_app, Hfwd, Hmt, Hbw, Hzg.
    simpl. repeat split; lia.
Qed.

Lemma count_calls_none (p : event -> bool) (evs : list event) :
  Forall (fun ev => p ev = false) evs -> count_calls p evs = 0%nat.
Proof.
  unfold count_calls. induction 1 as [|ev evs Hev _ IH]; [done|].
  simpl. by rewrite Hev.
Qed.

(** The test loop only ever runs the forward pass and the collective. *)
Lemma test_loop_events model device loader :
  forall meters s,
  exists evs : list event,
    trace (test_loop model device loader meters s).1 = trace s ++ evs
    /\ arguments (test_loop model device loader meters s).1 = arguments s
    /\ Forall (fun ev => is_forward ev || is_reduce ev = true) evs
    /\ (forall meters', (test_loop model device loader meters s).2 = Ok meters' ->
          count_calls is_forward evs = length loader).
Proof.
  induction loader as [|b rest IH]; intros meters s.
  - exists []. simpl. rewrite app_nil_r. repeat split; auto.
  - rewrite test_loop_cons. destruct b as [[images targets] aux].
    destruct (test_iteration_events model device images targets aux meters s)
      as (evs & Htr & Harg & Hevs).
    destruct (test_iteration _ _ _ _ _) as [s1 [m1|e]]; cbn [fst] in Htr, Harg.
    + destruct (IH m1 s1) as (evs' & Htr' & Harg' & Hall & Hcount).
      exists ([EvForward (to_img device images) (map (to_tgt device) targets)]
                ++ evs ++ evs').
      rewrite Htr', Harg', Htr, Harg, <- !app_assoc.
      split; [done|]. split; [done|]. split.
      * apply Forall_app. split; [by repeat constructor|].
        apply Forall_app. split; [|done].
        destruct Hevs as [->|[t ->]]; by repeat constructor.
      * intros m' Hm'. rewrite !count_calls_app, (Hcount m' Hm').
        destruct Hevs as [->|[t ->]]; reflexivity.
    + exists ([EvForward (to_img device images) (map (to_tgt device) targets)]
                ++ evs).
      cbn [fst snd]. rewrite Htr, Harg. split; [done|]. split; [done|]. split.
      * apply Forall_app. split; [by repeat constructor|].
        destruct Hevs as [->|[t ->]]; by repeat constructor.
      * intros m' Hm'. discriminate.
Qed.

Lemma forward_or_reduce_only (p : event -> bool) (evs : list event) :
  p = is_zero_grad \/ p = is_backward \/ p = is_optimizer_step
    \/ p = is_scheduler_step \/ p = is_model_train \/ p = is_log ->
  Forall (fun ev => is_forward ev || is_reduce ev = true) evs ->
  count_calls p evs = 0%nat.
Proof.
  intros Hp Hall. apply count_calls_none.
  eapply Forall_impl; [exact Hall|]. intros ev Hev.
  destruct Hp as [->|[->|[->|[->|[->| ->]]]]]; by destruct ev.
Qed.

(** X5. The test loop never optimises and never logs: whatever its
    outcome, every call it makes is a forward pass or a collective, so
    there is no scheduler step, no [zero_grad], no [backward], no
    optimizer step, no [model.train()], no clock read and no log line;
    and it leaves [arguments] alone. *)
Theorem test_loop_never_optimizes model device (loader : list batch) meters s :
  exists evs : list event,
    trace (test_loop model device loader meters s).1 = trace s ++ evs
    /\ arguments (test_loop model device loader meters s).1 = arguments s
    /\ Forall (fun ev => is_forward ev || is_reduce ev = true) evs
    /\ count_calls is_scheduler_step evs = 0%nat
    /\ count_calls is_zero_grad evs = 0%nat
    /\ count_calls is_backward evs = 0%nat
    /\ count_calls is_optimizer_step evs = 0%nat
    /\ count_calls is_model_train evs = 0%nat
    /\ count_calls is_log evs = 0%nat.
Proof.
  destruct (test_loop_events model device loader meters s)
    as (evs & Htr & Harg & Hall & _).
  exists evs. split; [done|]. split; [done|]. split; [done|].
  repeat split; apply forward_or_reduce_only; auto 10.
Qed.

(** The counters of a run of [do_train] that returns. *)
Lemma do_train_counts model (train_data_loader test_data_loader : list batch)
    optimizer scheduler device (args : gmap string Z) rt s' r :
  do_train model train_data_loader test_data_loader
           optimizer scheduler device args rt = (s', Ok r) ->
  exists n : nat,
    (n <= length train_data_loader)%nat
    /\ count_calls is_zero_grad (trace s') = n
    /\ count_calls is_backward (trace s') = n
    /\ count_calls is_optimizer_step (trace s') = n
    /\ count_calls is_forward (trace s')
       = (length train_data_loader + length test_data_loader)%nat
    /\ count_calls is_model_train (trace s') = 1%nat.
Proof.
  intros Hrun. rewrite do_train_unfold in Hrun.
  destruct (args !! "iteration") as [start_iter|]; [|done]. cbv zeta in Hrun.
  destruct (train_loop _ _ _ _ _ _ _ _ _) as [s1 [tm|e]] eqn:Htrain; [|done].
  destruct (train_loop_counts _ _ _ _ _ _ _ _ _ _ _ Htrain)
    as (n & Hn & Hz & Hb & Ho & Hf & Hm).
  destruct (test_loop_events model device test_data_loader
              (new_MetricLogger "  ") s1) as (evs & Htr & _ & Hall & Hcount).
  destruct (test_loop _ _ _ _ _) as [s2 [sm|e]]; [|done].
  cbn [fst snd] in Htr, Hcount. specialize (Hcount sm eq_refl).
  destruct (_ =? 0)%Z; [done|]. simplify_eq. exists n. cbn [trace].
  rewrite Htr, !count_calls_app, Hz, Hb, Ho, Hf, Hm, Hcount.
  rewrite !(forward_or_reduce_only _ evs) by auto 10.
  unfold count_calls. simpl. repeat split; lia.
Qed.

(** X6. In a run that returns, gradient steps are complete: [zero_grad],
    [backward] and the optimizer's [step] were called equally often, and
    at most once per training batch. *)
Theorem do_train_gradient_steps_complete
    model (train_data_loader test_data_loader : list batch)
    optimizer scheduler device (args : gmap string Z) rt s' r :
  do_train model train_data_loader test_data_loader
           optimizer scheduler device args rt = (s', Ok r) ->
  count_calls is_zero_grad (trace s') = count_calls is_backward (trace s')
  /\ count_calls is_backward (trace s') = count_calls is_optimizer_step (trace s')
  /\ (count_calls is_optimizer_step (trace s') <= length train_data_loader)%nat.
Proof.
  intros Hrun.
  destruct (do_train_counts _ _ _ _ _ _ _ _ _ _ Hrun)
    as (n & Hn & Hz & Hb & Ho & _). rewrite Hz, Hb, Ho. auto.
Qed.

(** X7. In a run that returns, the forward pass was attempted exactly
    once for every batch of the training loader and of the test loader,
    dropped batches included, and [model.train()] was called exactly
    once. *)
Theorem do_train_forward_once_per_batch
    model (train_data_loader test_data_loader : list batch)
    optimizer scheduler device (args : gmap string Z) rt s' r :
  do_train model train_data_loader test_data_loader
           optimizer scheduler device args rt = (s', Ok r) ->
  count_calls is_forward (trace s')
    = (length train_data_loader + length test_data_loader)%nat
  /\ count_calls is_model_train (trace s') = 1%nat.
Proof.
  intros Hrun.
  destruct (do_train_counts _ _ _ _ _ _ _ _ _ _ Hrun)
    as (n & _ & _ & _ & _ & Hf & Hm). auto.
Qed.

(** X1. With an empty training loader [do_train] never returns: the test
    loop still runs in full, and then the time-per-iteration report
    divides by the length of the training loader and raises.
    [arguments] is left as it was. *)
Theorem do_train_empty_training_loader
    model (test_data_loader : list batch)
    optimizer scheduler device (args : gmap string Z) rt start_iter :
  args !! "iteration" = Some start_iter ->
  usable_losses model ->
  exists s',
    do_train model [] test_data_loader optimizer scheduler device args rt
      = (s', Raise ZeroDivisionError)
    /\ arguments s' = args
    /\ count_calls is_forward (trace s') = length test_data_loader
    /\ count_calls is_optimizer_step (trace s') = 0%nat.
Proof.
  intros Hit Hgood. rewrite do_train_unfold, Hit. cbv zeta.
  simpl train_loop. unfold ret at 1.
  set (s1 := mkState _ _ _).
  destruct (test_loop_returns model device test_data_loader Hgood
              (new_MetricLogger "  ") s1) as (s2 & sm & Htest).
  destruct (test_loop_events model device test_data_loader
              (new_MetricLogger "  ") s1) as (evs & Htr & Harg & Hall & Hcount).
  rewrite Htest in *. cbn [fst snd] in Htr, Harg, Hcount.
  specialize (Hcount sm eq_refl). simpl length. simpl (_ =? _)%Z.
  eexists. split; [done|]. cbn [arguments trace]. split; [done|].
  rewrite Htr, !count_calls_app, Hcount.
  rewrite (forward_or_reduce_only is_optimizer_step evs) by auto 10.
  by subst s1.
Qed.

(** X2. Without an [iteration] entry in [arguments], [do_train] raises
    [KeyError] at once: only the opening log line has been written, the
    model was not put in training mode, and no batch was touched. *)
Theorem do_train_missing_iteration
    model (train_data_loader test_data_loader : list batch)
    optimizer scheduler device (args : gmap string Z) rt :
  args !! "iteration" = None ->
  do_train model train_data_loader test_data_loader
           optimizer scheduler device args rt
  = (mkState rt [EvLog StartTraining] args, Raise (KeyError "iteration")).
Proof. intros Hit. by rewrite do_train_unfold, Hit. Qed.

(** X3. A forward pass that returns an empty loss dictionary stops the
    training loop: with two or more workers [torch.stack] rejects the
    empty list before any collective or gradient call; with fewer, the
    gradients are zeroed and then [backward] fails on the int [0], so the
    optimizer never steps.  The test loop fails in the same way with two
    or more workers and otherwise records a total of zero. *)
Theorem empty_loss_dict_iteration model optimizer scheduler device max_iter i
    images targets aux meters s rt (s_t : state) rt_t :
  let images' := to_img device images in
  let targets' := map (to_tgt device) targets in
  model_call model images' targets' (scheduler_step scheduler (runtime s))
    = (rt, inr []) ->
  model_call model images' targets' (runtime s_t) = (rt_t, inr []) ->
  let s2 := mkState rt (trace s ++ [EvSchedulerStep; EvForward images' targets'])
                    (<["iteration" := (i + 1)%Z]> (arguments s)) in
  let s2_t := mkState rt_t (trace s_t ++ [EvForward images' targets'])
                      (arguments s_t) in
  train_iteration model optimizer scheduler device max_iter i
                  (images, targets, aux) meters s
  = (if (world_size <? 2)%Z
     then (mkState (zero_grad optimizer rt) (trace s2 ++ [EvZeroGrad])
                   (arguments s2), Raise AttributeError)
     else (s2, Raise RuntimeError))
  /\ test_iteration model device (images, targets, aux) meters s_t
     = (if (world_size <? 2)%Z
        then (s2_t, Ok (meters_update meters [("loss", tzero)]))
        else (s2_t, Raise RuntimeError)).
Proof.
  intros images' targets' Htrain Htest s2 s2_t. split.
  - rewrite train_iteration_unfold. fold images' targets'. cbv zeta.
    rewrite Htrain. fold s2.
    destruct (Z.ltb_spec world_size 2) as [Hlt|Hge].
    + by rewrite single_worker_identity.
    + by rewrite reduce_loss_dict_empty.
  - rewrite test_iteration_unfold. fold images' targets'. cbv zeta.
    rewrite Htest. fold s2_t.
    destruct (Z.ltb_spec world_size 2) as [Hlt|Hge].
    + by rewrite single_worker_identity.
    + by rewrite reduce_loss_dict_empty.
Qed.

(** X4. A loss named [loss] clashes with the keyword the total is passed
    under: the metric update raises [TypeError] in either loop, after the
    collective has already been issued (with two or more workers) and
    before any gradient call, so the accumulator is not updated and the
    optimizer does not step. *)
Theorem loss_name_clash_iteration model optimizer scheduler device max_iter i
    images targets aux meters s rt loss_dict (s_t : state) rt_t :
  let images' := to_img device images in
  let targets' := map (to_tgt device) targets in
  model_call model images' targets' (scheduler_step scheduler (runtime s))
    = (rt, inr loss_dict) ->
  model_call model images' targets' (runtime s_t) = (rt_t, inr loss_dict) ->
  "loss" ∈ keys loss_dict ->
  let s2 := mkState rt (trace s ++ [EvSchedulerStep; EvForward images' targets'])
                    (<["iteration" := (i + 1)%Z]> (arguments s)) in
  let s2_t := mkState rt_t (trace s_t ++ [EvForward images' targets'])
                      (arguments s_t) in
  train_iteration model optimizer scheduler device max_iter i
                  (images, targets, aux) meters s
  = ((if (world_size <? 2)%Z then s2 else after_reduce (stacked loss_dict) s2),
     Raise TypeError)
  /\ test_iteration model device (images, targets, aux) meters s_t
     = ((if (world_size <? 2)%Z then s2_t
         else after_reduce (stacked loss_dict) s2_t),
        Raise TypeError).
Proof.
  intros images' targets' Htrain Htest Hloss s2 s2_t.
  assert (Hd : loss_dict <> []).
  { intros ->. by apply elem_of_nil in Hloss. }
  assert (Hred : forall s0 : state,
             exists reduced,
               reduce_loss_dict loss_dict s0
               = ((if (world_size <? 2)%Z then s0
                   else after_reduce (stacked loss_dict) s0), Ok reduced)
               /\ "loss" ∈ keys reduced).
  { intros s0.
    destruct (reduce_loss_dict_cases tadd tdiv scratch dist loss_dict s0)
      as [(s_r & reduced & Hr)|(Hnil & _)]; [|done].
    exists reduced. split; [|by rewrite (reduced_has_loss _ _ _ _ Hr)].
    pose proof (reduce_loss_dict_state loss_dict s0) as Hst.
    rewrite Hr in Hst. cbn [fst] in Hst. rewrite Hr, Hst.
    by destruct (world_size <? 2)%Z, loss_dict. }
  split.
  - rewrite train_iteration_unfold. fold images' targets'. cbv zeta.
    rewrite Htrain. fold s2. destruct (Hred s2) as (reduced & -> & Hin).
    by rewrite bool_decide_eq_true_2.
  - rewrite test_iteration_unfold. fold images' targets'. cbv zeta.
    rewrite Htest. fold s2_t. destruct (Hred s2_t) as (reduced & -> & Hin).
    by rewrite bool_decide_eq_true_2.
Qed.

Lemma train_loop_all_dropped model optimizer scheduler device max_iter loader :
  always_fails model ->
  forall i meters s,
  exists s',
    train_loop model optimizer scheduler device max_iter i loader meters s
      = (s', Ok meters)
    /\ count_calls is_reduce (trace s') = count_calls is_reduce (trace s)
    /\ count_calls is_log (trace s') = count_calls is_log (trace s)
    /\ count_calls is_optimizer_step (trace s')
       = count_calls is_optimizer_step (trace s).
Proof.
  intros Hfail. induction loader as [|b rest IH]; intros i meters s.
  - by exists s.
  - destruct b as [[images targets] aux].
    rewrite train_loop_cons, train_iteration_unfold. cbv zeta.
    destruct (Hfail (to_img device images) (map (to_tgt device) targets)
                (scheduler_step scheduler (runtime s))) as (rt & e & ->).
    set (s1 := mkState rt _ _).
    destruct (IH (i + 1)%Z meters s1) as (s' & Hloop & Hr & Hl & Ho).
    exists s'. split; [done|]. rewrite Hr, Hl, Ho. subst s1. cbn [trace].
    by rewrite !count_calls_app.
Qed.

Lemma test_loop_all_dropped model device loader :
  always_fails model ->
  forall meters s,
  exists s',
    test_loop model device loader meters s = (s', Ok meters)
    /\ count_calls is_reduce (trace s') = count_calls is_reduce (trace s)
    /\ count_calls is_log (trace s') = count_calls is_log (trace s)
    /\ count_calls is_optimizer_step (trace s')
       = count_calls is_optimizer_step (trace s).
Proof.
  intros Hfail. induction loader as [|b rest IH]; intros meters s.
  - by exists s.
  - destruct b as [[images targets] aux].
    rewrite test_loop_cons, test_iteration_unfold. cbv zeta.
    destruct (Hfail (to_img device images) (map (to_tgt device) targets)
                (runtime s)) as (rt & e & ->).
    set (s1 := mkState rt _ _).
    destruct (IH meters s1) as (s' & Hloop & Hr & Hl & Ho).
    exists s'. split; [done|]. rewrite Hr, Hl, Ho. subst s1. cbn [trace].
    by rewrite !count_calls_app.
Qed.

(** X8. A model whose forward pass fails on every batch still gives a
    run that returns normally (for a non-empty training loader): both
    accumulators come back as they were created, no collective was
    issued, the optimizer never stepped, the only log lines are the
    opening one and the two closing ones, and [arguments["iteration"]]
    has advanced by the number of training batches. *)
Theorem do_train_all_batches_dropped
    model (train_data_loader test_data_loader : list batch)
    optimizer scheduler device (args : gmap string Z) rt start_iter :
  always_fails model ->
  train_data_loader <> [] ->
  args !! "iteration" = Some start_iter ->
  exists s',
    do_train model train_data_loader test_data_loader
             optimizer scheduler device args rt
      = (s', Ok (new_MetricLogger "  ", new_MetricLogger "  "))
    /\ arguments s'
       = <["iteration" := (start_iter + Z.of_nat (length train_data_loader))%Z]> args
    /\ count_calls is_reduce (trace s') = 0%nat
    /\ count_calls is_optimizer_step (trace s') = 0%nat
    /\ count_calls is_log (trace s') = 3%nat.
Proof.
  intros Hfail Hne Hit. rewrite do_train_unfold, Hit. cbv zeta.
  set (s0 := mkState (model_train model rt) _ args).
  destruct (train_loop_all_dropped model optimizer scheduler device
              (Z.of_nat (length train_data_loader)) train_data_loader Hfail
              start_iter (new_MetricLogger "  ") s0)
    as (s1 & Htrain & Hr1 & Hl1 & Ho1).
  destruct (test_loop_all_dropped model device test_data_loader Hfail
              (new_MetricLogger "  ") s1) as (s2 & Htest & Hr2 & Hl2 & Ho2).
  rewrite Htrain, Htest.
  destruct (Z.eqb_spec (Z.of_nat (length train_data_loader)) 0) as [H0|_].
  { destruct train_data_loader; [done|simpl in H0; lia]. }
  eexists. split; [done|].
  apply train_loop_counter in Htrain as [Ha _]; [|done].
  apply test_loop_counter in Htest as [Ha' _].
  cbn [arguments trace]. split; [by rewrite Ha', Ha|].
  rewrite !count_calls_app, Hr2, Hr1, Hl2, Hl1, Ho2, Ho1. by subst s0.
Qed.

(** X10. With fewer than two workers nothing is reduced, so what a
    successful training iteration records is the model's own dictionary,
    and the total it records is the very sum it backpropagates. *)
Theorem single_worker_logs_what_it_optimizes
    model optimizer scheduler device max_iter i
    images targets aux meters s rt loss_dict :
  let images' := to_img device images in
  let targets' := map (to_tgt device) targets in
  (world_size < 2)%Z ->
  model_call model images' targets' (scheduler_step scheduler (runtime s))
    = (rt, inr loss_dict) ->
  loss_dict <> [] ->
  "loss" ∉ keys loss_dict ->
  let losses := py_sum (values loss_dict) in
  let meters' := meters_update meters (("loss", losses) :: loss_dict) in
  train_iteration model optimizer scheduler device max_iter i
                  (images, targets, aux) meters s
  = (mkState
       (optimizer_step optimizer (backward losses (zero_grad optimizer rt)))
       (trace s ++ [EvSchedulerStep; EvForward images' targets';
                    EvZeroGrad; EvBackward losses; EvOptimizerStep]
          ++ (if (((i + 1) mod 10 =? 0) || (i + 1 =? max_iter))%Z
              then [EvLog (TrainMeters meters')] else []))
       (<["iteration" := (i + 1)%Z]> (arguments s)),
     Ok meters').
Proof.
  intros images' targets' Hws Hfwd Hd Hloss losses meters'.
  rewrite train_iteration_unfold. fold images' targets'. cbv zeta.
  rewrite Hfwd, single_worker_identity by done.
  rewrite bool_decide_eq_false_2 by done.
  destruct loss_dict as [|kv d]; [done|]. cbn [runtime trace arguments].
  by rewrite <- !app_assoc.
Qed.

Lemma train_loop_other_keys model optimizer scheduler device max_iter loader k :
  k <> "iteration" ->
  forall i meters s,
    arguments (train_loop model optimizer scheduler device max_iter i
                          loader meters s).1 !! k
    = arguments s !! k.
Proof.
  intros Hk. induction loader as [|b rest IH]; intros i meters s; [done|].
  rewrite train_loop_cons. destruct b as [[images targets] aux].
  destruct (train_iteration_frame model optimizer scheduler device max_iter i
              images targets aux meters s) as (evs & _ & Harg & _).
  destruct (train_iteration _ _ _ _ _ _ _ _ _) as [s1 [m1|e]];
    cbn [fst] in Harg.
  - rewrite IH, Harg. by apply lookup_insert_ne.
  - cbn [fst]. rewrite Harg. by apply lookup_insert_ne.
Qed.

(** X11. Whatever happens, return or exception, [do_train] touches no
    entry of [arguments] other than [iteration]. *)
Theorem do_train_leaves_other_arguments
    model (train_data_loader test_data_loader : list batch)
    optimizer scheduler device (args : gmap string Z) rt k :
  k <> "iteration" ->
  arguments (do_train model train_data_loader test_data_loader
                      optimizer scheduler device args rt).1 !! k
  = args !! k.
Proof.
  intros Hk. rewrite do_train_unfold.
  destruct (args !! "iteration") as [start_iter|]; [|done]. cbv zeta.
  set (s0 := mkState (model_train model rt) _ args).
  pose proof (train_loop_other_keys model optimizer scheduler device
                (Z.of_nat (length train_data_loader)) train_data_loader k Hk
                start_iter (new_MetricLogger "  ") s0) as Htrain.
  destruct (train_loop _ _ _ _ _ _ _ _ _) as [s1 [tm|e]];
    cbn [fst] in Htrain; [|done].
  destruct (test_loop model device test_data_loader (new_MetricLogger "  ") s1)
    as [s2 [sm|e]] eqn:Htest;
    apply test_loop_counter in Htest as [Ha _].
  - destruct (_ =? 0)%Z; cbn [fst arguments]; by rewrite Ha, Htrain.
  - cbn [fst]. by rewrite Ha, Htrain.
Qed.

(** A training iteration writes a log line only after it has stepped the
    optimizer. *)
Lemma train_iteration_logs_after_step model optimizer scheduler device max_iter i
    b meters s :
  let out := train_iteration model optimizer scheduler device max_iter i
                             b meters s in
  (count_calls is_log (trace out.1) + count_calls is_optimizer_step (trace s)
   <= count_calls is_log (trace s) + count_calls is_optimizer_step (trace out.1))%nat.
Proof.
  intros out. subst out. destruct b as [[images targets] aux].
  rewrite train_iteration_unfold. cbv zeta.
  destruct (model_call model _ _ _) as [rt [e|loss_dict]].
  { cbn [fst trace]. rewrite !count_calls_app.
    unfold count_calls. simpl. lia. }
  set (s2 := mkState rt _ _).
  destruct (reduce_loss_dict_events loss_dict s2) as (evs & Htr & _ & Hevs).
  assert (Hs3 : count_calls is_log (trace (reduce_loss_dict loss_dict s2).1)
                = count_calls is_log (trace s)
                /\ count_calls is_optimizer_step
                     (trace (reduce_loss_dict loss_dict s2).1)
                   = count_calls is_optimizer_step (trace s)).
  { rewrite Htr. subst s2. cbn [trace]. rewrite !count_calls_app.
    destruct Hevs as [->|[t ->]]; unfold count_calls; simpl; lia. }
  destruct (reduce_loss_dict loss_dict s2) as [s3 [reduced|e]];
    cbn [fst] in Hs3; destruct Hs3 as [Hl Ho].
  2:{ cbn [fst]. lia. }
  destruct (bool_decide _); [cbn [fst]; lia|].
  destruct loss_dict as [|kv d]; cbn [fst trace]; rewrite !count_calls_app.
  - unfold count_calls in *. simpl. lia.
  - destruct (_ || _); unfold count_calls in *; simpl; lia.
Qed.

Lemma train_loop_logs_after_step model optimizer scheduler device max_iter loader :
  forall i meters s,
    let out := train_loop model optimizer scheduler device max_iter i
                          loader meters s in
    (count_calls is_log (trace out.1) + count_calls is_optimizer_step (trace s)
     <= count_calls is_log (trace s)
        + count_calls is_optimizer_step (trace out.1))%nat.
Proof.
  induction loader as [|b rest IH]; intros i meters s; cbv zeta.
  - simpl. lia.
  - rewrite train_loop_cons.
    pose proof (train_iteration_logs_after_step model optimizer scheduler
                  device max_iter i b meters s) as Hit. cbv zeta in Hit.
    destruct (train_iteration _ _ _ _ _ _ _ _ _) as [s1 [m1|e]];
      cbn [fst] in Hit; [|done].
    specialize (IH (i + 1)%Z m1 s1). cbv zeta in IH. lia.
Qed.

(** X13. Apart from the opening line and the two closing ones, a log line
    is only ever written by a training iteration that has just stepped
    the optimizer: a dropped batch is never logged, even when its index
    is a multiple of ten or the last one. *)
Theorem do_train_logs_only_after_steps
    model (train_data_loader test_data_loader : list batch)
    optimizer scheduler device (args : gmap string Z) rt :
  (count_calls is_log
     (trace (do_train model train_data_loader test_data_loader
                      optimizer scheduler device args rt).1)
   <= 3 + count_calls is_optimizer_step
            (trace (do_train model train_data_loader test_data_loader
                             optimizer scheduler device args rt).1))%nat.
Proof.
  rewrite do_train_unfold.
  destruct (args !! "iteration") as [start_iter|];
    [|unfold count_calls; simpl; lia]. cbv zeta.
  set (s0 := mkState (model_train model rt) _ args).
  pose proof (train_loop_logs_after_step model optimizer scheduler device
                (Z.of_nat (length train_data_loader)) train_data_loader
                start_iter (new_MetricLogger "  ") s0) as Htrain.
  cbv zeta in Htrain.
  destruct (train_loop _ _ _ _ _ _ _ _ _) as [s1 [tm|e]]; cbn [fst] in Htrain.
  2:{ cbn [fst]. subst s0. unfold count_calls in *. simpl in Htrain. lia. }
  destruct (test_loop_events model device test_data_loader
              (new_MetricLogger "  ") s1) as (evs & Htr & _ & Hall & _).
  assert (Hs2 : count_calls is_log
                  (trace (test_loop model device test_data_loader
                            (new_MetricLogger "  ") s1).1)
                = count_calls is_log (trace s1)
                /\ count_calls is_optimizer_step
                     (trace (test_loop model device test_data_loader
                               (new_MetricLogger "  ") s1).1)
                   = count_calls is_optimizer_step (trace s1)).
  { rewrite Htr, !count_calls_app.
    rewrite !(forward_or_reduce_only _ evs) by auto 10. lia. }
  destruct (test_loop _ _ _ _ _) as [s2 [sm|e]]; cbn [fst] in Hs2;
    destruct Hs2 as [Hl Ho].
  2:{ cbn [fst]. subst s0. unfold count_calls in *. simpl in Htrain. lia. }
  destruct (_ =? 0)%Z; cbn [fst trace]; rewrite !count_calls_app;
    subst s0; unfold count_calls in *; simpl in *; lia.
Qed.
End DoTrain.

(** ** [reduce_loss_dict] on the object store *)

Section StoreFacts.
Context {T : Type}.
Variable tadd : T -> T -> T.
Variable tdiv : T -> Z -> T.
Variable scratch : Z -> list (list T) -> list T -> nat -> T -> T.

Local Abbreviation heap := (@Store.heap T).
Local Abbreviation store_reduce_loss_dict :=
  (@Store.reduce_loss_dict T tadd tdiv scratch).

Implicit Types (h : heap) (d : dict Store.tensor_ref) (r : Store.tensor_ref).

Lemma getitem_values {V} (d : dict V) k v : getitem d k = Some v -> v ∈ values d.
Proof.
  unfold values. induction d as [|[k' x] d IH]; simpl; [done|].
  destruct (String.eqb k' k); intros H.
  - simplify_eq. apply elem_of_cons. by left.
  - apply elem_of_cons. right. auto.
Qed.

Lemma stacked_values {V} (d : dict V) : Forall (fun v => v ∈ values d) (stacked d).
Proof.
  apply Forall_forall. intros v Hv. unfold stacked in Hv.
  apply list_elem_of_omap in Hv as (k & _ & Hk). by eapply getitem_values.
Qed.

Lemma fresh_storage h : Store.storages h !! fresh (dom (Store.storages h)) = None.
Proof. apply not_elem_of_dom, is_fresh. Qed.

Lemma fresh_dict h : Store.dicts h !! fresh (dom (Store.dicts h)) = None.
Proof. apply not_elem_of_dom, is_fresh. Qed.

(** What the reducing path does to the store, step by step. *)
Lemma store_reduce_loss_dict_reducing world_size rank peers loss_dict h d data :
  (2 <= world_size)%Z ->
  Store.dicts h !! loss_dict = Some d ->
  mapM (Store.read h) (stacked d) = Some data ->
  data <> [] ->
  let a := fresh (dom (Store.storages h)) in
  let q := fresh (dom (Store.dicts h)) in
  let t := dist_reduce tadd scratch rank peers data in
  let t' := if (rank =? 0)%Z then idiv tdiv world_size t else t in
  store_reduce_loss_dict world_size rank peers loss_dict h
  = Some (Store.Heap (<[a := t']> (Store.storages h))
            (<[q := zip (sorted (keys d)) (Store.unbind a (length data))]>
               (Store.dicts h)),
          Ok q).
Proof.
  intros Hws Hd Hdata Hne a q t t'. unfold Store.reduce_loss_dict.
  destruct (Z.ltb_spec world_size 2) as [?|_]; [lia|].
  rewrite Hd. simpl. rewrite collect_sorted. rewrite Hdata. simpl.
  destruct data as [|x data]; [done|]. simpl torch_stack. cbv iota beta.
  unfold Store.alloc_storage, Store.update_storage. simpl.
  fold a. rewrite lookup_insert_eq. simpl. rewrite insert_insert_eq.
  subst t'. destruct (rank =? 0)%Z; simpl.
  - rewrite lookup_insert_eq. simpl. by rewrite insert_insert_eq.
  - done.
Qed.

(** C8. [reduce_loss_dict] never writes to what it was given.  Every
    storage and every dictionary that existed before the call, the input
    dictionary and its tensors among them, is unchanged after it, for
    every world size.  With fewer than two workers the store is not
    touched at all and the input object itself is returned; with two or
    more, the stacked tensor is a new storage, the collective and the
    division write to that storage only, and the result is a new
    dictionary whose values are views of it. *)
Theorem reduce_loss_dict_leaves_input world_size rank peers loss_dict h d :
  Store.dicts h !! loss_dict = Some d ->
  Forall (fun r => is_Some (Store.read h r)) (values d) ->
  exists h' res,
    store_reduce_loss_dict world_size rank peers loss_dict h = Some (h', res)
    /\ (forall a data, Store.storages h !! a = Some data ->
                       Store.storages h' !! a = Some data)
    /\ (forall p d0, Store.dicts h !! p = Some d0 -> Store.dicts h' !! p = Some d0)
    /\ ((world_size < 2)%Z -> h' = h /\ res = Ok loss_dict)
    /\ ((2 <= world_size)%Z -> d = [] -> h' = h /\ res = Raise RuntimeError)
    /\ ((2 <= world_size)%Z -> d <> [] ->
        exists q a reduced,
          res = Ok q
          /\ Store.dicts h !! q = None
          /\ Store.storages h !! a = None
          /\ Store.dicts h' !! q = Some reduced
          /\ keys reduced = sorted (keys d)
          /\ Forall (fun v => Store.storage v = a) (values reduced)).
Proof.
  intros Hd Hread.
  destruct (Z.ltb_spec world_size 2) as [Hlt|Hge].
  { exists h, (Ok loss_dict). unfold Store.reduce_loss_dict.
    destruct (Z.ltb_spec world_size 2) as [_|?]; [|lia].
    repeat split; auto; lia. }
  assert (is_Some (mapM (Store.read h) (stacked d))) as [data Hdata].
  { apply mapM_is_Some. eapply Forall_impl; [apply stacked_values|].
    intros r Hr. simpl. by eapply (proj1 (Forall_forall _ _) Hread). }
  assert (Hlen : length data = length d).
  { rewrite <- (length_mapM _ _ _ Hdata). apply stacked_length. }
  destruct d as [|kv d].
  { exists h, (Raise RuntimeError). unfold Store.reduce_loss_dict.
    destruct (Z.ltb_spec world_size 2) as [?|_]; [lia|].
    rewrite Hd. simpl. repeat split; auto; try lia; done. }
  assert (Hne : data <> []) by (by destruct data).
  rewrite (store_reduce_loss_dict_reducing _ _ _ _ _ _ _ Hge Hd Hdata Hne).
  cbv zeta. eexists _, _. split; [done|]. simpl.
  split; [|split; [|split; [lia|split; [done|]]]].
  - intros a data0 Ha. rewrite lookup_insert_ne; [done|].
    intros <-. by rewrite fresh_storage in Ha.
  - intros p d0 Hp. rewrite lookup_insert_ne; [done|].
    intros <-. by rewrite fresh_dict in Hp.
  - intros _ _. eexists _, _, _. split; [done|].
    split; [apply fresh_dict|]. split; [apply fresh_storage|].
    split; [apply lookup_insert_eq|]. split.
    + apply keys_zip. unfold Store.unbind.
      rewrite length_fmap, length_seq, sorted_length, Hlen.
      simpl. unfold keys. by rewrite length_fmap.
    + apply Forall_forall. intros v Hv. unfold values in Hv.
      apply list_elem_of_fmap in Hv as ([k v'] & -> & Hin).
      apply elem_of_zip_r in Hin. unfold Store.unbind in Hin.
      apply list_elem_of_fmap in Hin as (i & -> & _). done.
Qed.
End StoreFacts.

(** ** The store model computes what the value model computes *)

Section StoreRefinement.
Context {T : Type}.
Variable tadd : T -> T -> T.
Variable tdiv : T -> Z -> T.
Variable scratch : Z -> list (list T) -> list T -> nat -> T -> T.
Context {RT Img Tgt MetricLogger : Type}.
Variable dist : @ProcessGroup T RT.

Local Abbreviation heap := (@Store.heap T).
Local Abbreviation state := (@state T RT Img Tgt MetricLogger).
Local Abbreviation reduce_loss_dict :=
  (@reduce_loss_dict T tadd tdiv scratch RT Img Tgt MetricLogger dist).
Local Abbreviation store_reduce_loss_dict :=
  (@Store.reduce_loss_dict T tadd tdiv scratch).

Implicit Types (h : heap) (d : dict Store.tensor_ref) (vals : dict T).

Lemma load_cons h k r d :
  Store.load h ((k, r) :: d)
  = v ← Store.read h r; vals ← Store.load h d; Some ((k, v) :: vals).
Proof.
  unfold Store.load. simpl. destruct (Store.read h r); [|done]. simpl.
  by destruct (mapM _ d).
Qed.

Lemma load_keys h d vals : Store.load h d = Some vals -> keys vals = keys d.
Proof.
  revert vals. induction d as [|[k r] d IH]; intros vals H.
  - unfold Store.load in H. by injection H as <-.
  - rewrite load_cons in H.
    destruct (Store.read h r) as [v|]; [|done]. simpl in H.
    destruct (Store.load h d) as [vals'|]; [|done]. simpl in H.
    simplify_eq. unfold keys in *. simpl. f_equal. by apply IH.
Qed.

Lemma load_getitem h d vals k :
  Store.load h d = Some vals ->
  match getitem d k with
  | Some r => exists v, Store.read h r = Some v /\ getitem vals k = Some v
  | None => getitem vals k = None
  end.
Proof.
  revert vals. induction d as [|[k' r] d IH]; intros vals H.
  - unfold Store.load in H. by injection H as <-.
  - rewrite load_cons in H.
    destruct (Store.read h r) as [v|] eqn:Hr; [|done]. simpl in H.
    destruct (Store.load h d) as [vals'|]; [|done]. simpl in H.
    simplify_eq. simpl. destruct (String.eqb k' k); [eauto|]. by apply IH.
Qed.

Lemma load_stacked h d vals :
  Store.load h d = Some vals ->
  mapM (Store.read h) (stacked d) = Some (stacked vals).
Proof.
  intros H. apply mapM_Some_2. unfold stacked.
  rewrite (load_keys _ _ _ H).
  induction (sorted (keys d)) as [|k ks IH]; [constructor|].
  change (omap ?f (k :: ks))
    with (match f k with Some y => y :: omap f ks | None => omap f ks end).
  pose proof (load_getitem h d vals k H) as Hk.
  destruct (getitem d k) as [r|].
  - destruct Hk as (v & Hr & ->). by constructor.
  - by rewrite Hk.
Qed.

Lemma read_unbind h a data :
  Store.storages h !! a = Some data ->
  Forall2 (fun r v => Store.read h r = Some v)
          (Store.unbind a (length data)) data.
Proof.
  intros Ha. apply Forall2_same_length_lookup_2.
  - unfold Store.unbind. by rewrite length_fmap, length_seq.
  - intros i r v Hr Hv. unfold Store.unbind in Hr.
    rewrite list_lookup_fmap in Hr.
    destruct (seq 0 (length data) !! i) as [j|] eqn:Hj; [|done].
    apply lookup_seq in Hj as [-> _]. simpl in Hr. simplify_eq.
    unfold Store.read. simpl. by rewrite Ha.
Qed.

Lemma load_zip h ks rs (vs : list T) :
  Forall2 (fun r v => Store.read h r = Some v) rs vs ->
  Store.load h (zip ks rs) = Some (zip ks vs).
Proof.
  intros H. revert ks. induction H as [|r v rs vs Hr _ IH]; intros [|k ks];
    try done.
  change (zip (k :: ks) (r :: rs)) with ((k, r) :: zip ks rs).
  rewrite load_cons, Hr. simpl. by rewrite IH.
Qed.

(** X12. The values of the returned dictionary are views of the one
    reduced tensor: run on a store whose input dictionary holds the
    values [vals], [reduce_loss_dict] returns a dictionary that, read
    through the store after the call, holds exactly what the function
    computes on [vals], name by name; and it raises when that raises. *)
Lemma store_refines_values loss_dict h d vals (s : state) :
  Store.dicts h !! loss_dict = Some d ->
  Store.load h d = Some vals ->
  match store_reduce_loss_dict (get_world_size dist) (get_rank dist)
          (peer_tensors dist (runtime s)) loss_dict h with
  | Some (h', Ok q) =>
      exists d' vals',
        Store.dicts h' !! q = Some d'
        /\ Store.load h' d' = Some vals'
        /\ (reduce_loss_dict vals s).2 = Ok vals'
  | Some (h', Raise e) => (reduce_loss_dict vals s).2 = Raise e
  | None => False
  end.
Proof.
  intros Hd Hload.
  destruct (Z.ltb_spec (get_world_size dist) 2) as [Hlt|Hge].
  { unfold Store.reduce_loss_dict.
    destruct (Z.ltb_spec (get_world_size dist) 2) as [_|?]; [|lia].
    exists d, vals. by rewrite single_worker_identity. }
  pose proof (load_stacked _ _ _ Hload) as Hdata.
  pose proof (load_keys _ _ _ Hload) as Hkeys.
  destruct vals as [|kv vals].
  { assert (d = []) as -> by (by destruct d).
    unfold Store.reduce_loss_dict.
    destruct (Z.ltb_spec (get_world_size dist) 2) as [?|_]; [lia|].
    rewrite Hd. simpl. by rewrite reduce_loss_dict_empty. }
  assert (Hne : stacked (kv :: vals) <> []).
  { intros Hnil. by apply stacked_nil in Hnil. }
  rewrite (store_reduce_loss_dict_reducing tadd tdiv scratch
             _ _ _ _ _ _ _ Hge Hd Hdata Hne).
  cbv zeta. eexists _, _. split; [apply lookup_insert_eq|].
  rewrite reduce_loss_dict_reducing by done. rewrite Hkeys. simpl.
  split; [|done]. apply load_zip.
  set (t' := if (get_rank dist =? 0)%Z then _ else _).
  assert (Hlen : length t' = length (stacked (kv :: vals))).
  { subst t'. destruct (get_rank dist =? 0)%Z;
      by rewrite ?(idiv_length tdiv), (dist_reduce_length tadd scratch). }
  rewrite <- Hlen. apply read_unbind. simpl. apply lookup_insert_eq.
Qed.
End StoreRefinement.

(** ** The theorems at work on the small instance *)

Lemma demo_model_usable : usable_losses Demo.model.
Proof.
  intros images targets rt rt' d H. simpl in H.
  destruct (images <? 0)%Z; simplify_eq. split; [done|].
  unfold keys. simpl. rewrite !elem_of_cons, elem_of_nil.
  intros [?|[?|[]]]; discriminate.
Qed.

Lemma reduce_loss_dict_rank0_average_witness :
  exists reduced_losses,
    (Demo.reduce_loss_dict 2 0 Demo.loss_dict Demo.s0).2 = Ok reduced_losses
    /\ getitem reduced_losses "loss_classifier"
       = Some (average Demo.tadd Demo.tdiv Demo.tzero [(1 # 2)%Q; (3 # 2)%Q])
    /\ getitem reduced_losses "loss_objectness"
       = Some (average Demo.tadd Demo.tdiv Demo.tzero [2%Q; 4%Q]).
Proof.
  destruct (reduce_loss_dict_rank0_average Demo.tadd Demo.tdiv Demo.tzero
              Demo.scratch (Demo.group 2 0) Demo.loss_dict [Demo.peer_dict] Demo.s0)
    as (reduced_losses & Hrun & _ & _ & Havg).
  - simpl. lia.
  - reflexivity.
  - discriminate.
  - reflexivity.
  - constructor; [apply perm_swap|constructor].
  - reflexivity.
  - exists reduced_losses. split; [|split].
    + unfold Demo.reduce_loss_dict. rewrite Hrun. reflexivity.
    + apply Havg; [reflexivity|]. constructor; [reflexivity|constructor].
    + apply Havg; [reflexivity|]. constructor; [reflexivity|constructor].
Defined.

Lemma reduce_loss_dict_single_worker_witness :
  Demo.reduce_loss_dict 1 0 Demo.loss_dict Demo.s0 = (Demo.s0, Ok Demo.loss_dict).
Proof.
  unfold Demo.reduce_loss_dict.
  apply (reduce_loss_dict_single_worker Demo.tadd Demo.tdiv Demo.scratch
           (Demo.group 1 0) Demo.loss_dict Demo.s0).
  simpl. lia.
Defined.

Lemma reduce_loss_dict_key_order_witness :
  (exists s' r,
      Demo.reduce_loss_dict 2 1 Demo.loss_dict Demo.s0 = (s', Ok r)
      /\ keys r = ["loss_classifier"; "loss_objectness"])
  /\ (exists r,
        Demo.reduce_loss_dict 1 0 Demo.loss_dict Demo.s0 = (Demo.s0, Ok r)
        /\ keys r = ["loss_objectness"; "loss_classifier"]).
Proof.
  split.
  - destruct (reduce_loss_dict_key_order Demo.tadd Demo.tdiv Demo.scratch
                (Demo.group 2 1) Demo.loss_dict Demo.s0) as [Hsorted _].
    destruct Hsorted as [Hret Hord]; [simpl; lia|].
    destruct Hret as (s' & r & Hrun); [discriminate|].
    exists s', r. split; [exact Hrun|].
    rewrite (Hord s' r Hrun). vm_compute. reflexivity.
  - destruct (reduce_loss_dict_key_order Demo.tadd Demo.tdiv Demo.scratch
                (Demo.group 1 0) Demo.loss_dict Demo.s0) as [_ Hsame].
    destruct Hsame as (r & Hrun & _ & Hkeys); [simpl; lia|].
    exists r. split; [exact Hrun|]. rewrite Hkeys. reflexivity.
Defined.

(** C3 as stated fails with one worker: the mapping comes back in the
    order the model inserted the names, which is not the sorted one. *)
Lemma key_order_counterexample :
  exists r,
    (Demo.reduce_loss_dict 1 0 Demo.loss_dict Demo.s0).2 = Ok r
    /\ keys r = ["loss_objectness"; "loss_classifier"]
    /\ sorted (keys Demo.loss_dict) = ["loss_classifier"; "loss_objectness"]
    /\ keys r <> sorted (keys Demo.loss_dict).
Proof.
  exists Demo.loss_dict. split; [reflexivity|]. split; [reflexivity|].
  split; [vm_compute; reflexivity|]. vm_compute. discriminate.
Qed.

Lemma reduce_loss_dict_other_rank_witness :
  (Demo.reduce_loss_dict 2 1 Demo.loss_dict Demo.s0).2
  = Ok [("loss_classifier", (1 # 2)%Q); ("loss_objectness", 2%Q)].
Proof.
  unfold Demo.reduce_loss_dict.
  rewrite (reduce_loss_dict_other_rank Demo.tadd Demo.tdiv Demo.scratch
             (Demo.group 2 1) Demo.loss_dict Demo.s0).
  - vm_compute. reflexivity.
  - simpl. lia.
  - simpl. lia.
  - discriminate.
Defined.

Lemma forward_exception_drops_batch_witness :
  Demo.train_loop 2 0 3 0 [Demo.bad_batch; Demo.good_batch] [] Demo.s0
  = Demo.train_loop 2 0 3 1 [Demo.good_batch] []
      (mkState 0%nat [EvSchedulerStep; EvForward (-1)%Z []]
               (<["iteration" := 1%Z]> (arguments Demo.s0)))
  /\ Demo.test_loop 2 0 [Demo.bad_batch; Demo.good_batch] [] Demo.s0
     = Demo.test_loop 2 0 [Demo.good_batch] []
         (mkState 0%nat [EvForward (-1)%Z []] (arguments Demo.s0)).
Proof.
  apply (forward_exception_drops_batch Demo.tadd Demo.tdiv Demo.tzero Demo.scratch
           (Demo.group 2 0) Demo.backward Demo.to_img Demo.to_tgt Demo.meters_update
           Demo.model Demo.optimizer Demo.scheduler "cuda" 3%Z 0%Z
           (-1)%Z [] tt [Demo.good_batch] [] Demo.s0 0%nat "bad batch"
           (-1)%Z [] tt [Demo.good_batch] [] Demo.s0 0%nat "bad batch");
    reflexivity.
Defined.

(** C5 as stated fails on a dropped batch, and on any batch when there is
    one worker only: the iteration issues no collective at all. *)
Lemma one_collective_per_iteration_counterexample :
  count_calls is_reduce
    (trace (Demo.train_iteration 2 0 3 0 Demo.bad_batch [] Demo.s0).1) = 0%nat
  /\ count_calls is_reduce
       (trace (Demo.test_iteration 2 0 Demo.bad_batch [] Demo.s0).1) = 0%nat
  /\ count_calls is_reduce
       (trace (Demo.train_iteration 1 0 3 0 Demo.good_batch [] Demo.s0).1) = 0%nat
  /\ count_calls is_reduce
       (trace (Demo.train_iteration 2 0 3 0 Demo.bad_batch [] Demo.s0).1) <> 1%nat.
Proof. repeat split; vm_compute; (reflexivity || discriminate). Qed.

Lemma train_iteration_optimizes_witness :
  exists s_r loss_dict_reduced,
    Demo.reduce_loss_dict 2 0
      [("loss_objectness", 2%Q); ("loss_classifier", (1 # 2)%Q)]
      (mkState 0%nat [EvSchedulerStep; EvForward 2%Z [7%Z]]
               (<["iteration" := 1%Z]> (arguments Demo.s0)))
    = (s_r, Ok loss_dict_reduced)
    /\ loss_dict_reduced = [("loss_classifier", 1%Q); ("loss_objectness", 3%Q)]
    /\ Demo.train_iteration 2 0 3 0 Demo.good_batch [] Demo.s0
       = (mkState 1%nat
            (trace s_r ++ [EvZeroGrad; EvBackward (5 # 2)%Q; EvOptimizerStep])
            (arguments s_r),
          Ok [("loss", 4%Q) :: loss_dict_reduced]).
Proof.
  destruct (train_iteration_optimizes Demo.tadd Demo.tdiv Demo.tzero Demo.scratch
              (Demo.group 2 0) Demo.backward Demo.to_img Demo.to_tgt
              Demo.meters_update Demo.model Demo.optimizer Demo.scheduler "cuda"
              3%Z 0%Z 2%Z [7%Z] tt [] Demo.s0 0%nat
              [("loss_objectness", 2%Q); ("loss_classifier", (1 # 2)%Q)])
    as (s_r & red & Hred & Hrun).
  - reflexivity.
  - discriminate.
  - unfold keys. simpl. rewrite !elem_of_cons, elem_of_nil.
    intros [?|[?|[]]]; discriminate.
  - pose proof Hred as Hval. vm_compute in Hval. injection Hval as <- <-.
    eexists _, _. split; [exact Hred|]. split; [reflexivity|].
    unfold Demo.train_iteration, Demo.good_batch. rewrite Hrun. reflexivity.
Defined.

Lemma do_train_returns_meters_witness :
  exists train_meters test_meters,
    (Demo.do_train 2 0 Demo.arguments5 0%nat).2 = Ok (train_meters, test_meters)
    /\ length train_meters = 2%nat /\ length test_meters = 1%nat.
Proof.
  destruct (do_train_returns_meters Demo.tadd Demo.tdiv Demo.tzero Demo.scratch
              (Demo.group 2 0) Demo.backward Demo.to_img Demo.to_tgt
              Demo.new_MetricLogger Demo.meters_update Demo.model
              Demo.train_data_loader Demo.test_data_loader
              Demo.optimizer Demo.scheduler "cuda" Demo.arguments5 0%nat 5%Z)
    as (s1 & s2 & s3 & tm & sm & Htrain & Htest & Hrun).
  - discriminate.
  - reflexivity.
  - exact demo_model_usable.
  - exists tm, sm. unfold Demo.do_train. rewrite Hrun. split; [reflexivity|].
    vm_compute in Htrain. injection Htrain as <- <-.
    vm_compute in Htest. injection Htest as <- <-.
    split; reflexivity.
Defined.

Lemma iteration_counter_counts_every_batch_witness :
  arguments (Demo.train_iteration 2 0 3 5 Demo.bad_batch [] Demo.s0).1 !! "iteration"
    = Some 6%Z
  /\ arguments (Demo.do_train 2 0 Demo.arguments5 0%nat).1 !! "iteration"
     = Some 8%Z
  /\ count_calls is_scheduler_step (trace (Demo.do_train 2 0 Demo.arguments5 0%nat).1)
     = 3%nat.
Proof.
  destruct (iteration_counter_counts_every_batch Demo.tadd Demo.tdiv Demo.tzero
              Demo.scratch (Demo.group 2 0) Demo.backward Demo.to_img Demo.to_tgt
              Demo.new_MetricLogger Demo.meters_update Demo.model
              Demo.train_data_loader Demo.test_data_loader
              Demo.optimizer Demo.scheduler "cuda" Demo.arguments5 0%nat 5%Z
              (Demo.do_train 2 0 Demo.arguments5 0%nat).1
              ([[("loss", 5%Q); ("loss_classifier", 1%Q); ("loss_objectness", 4%Q)];
                [("loss", 4%Q); ("loss_classifier", 1%Q); ("loss_objectness", 3%Q)]],
               [[("loss", 4%Q); ("loss_classifier", 1%Q); ("loss_objectness", 3%Q)]])
              3%Z 5%Z (-1)%Z [] tt [] Demo.s0)
    as ((Hiter & _) & Hargs & Hsched).
  - reflexivity.
  - vm_compute. reflexivity.
  - split; [|split].
    + unfold Demo.train_iteration, Demo.bad_batch. rewrite Hiter.
      apply lookup_insert_eq.
    + rewrite Hargs. apply lookup_insert_eq.
    + exact Hsched.
Defined.

Lemma reduce_loss_dict_leaves_input_witness :
  exists h' q,
    Demo.store_reduce_loss_dict 2 0 1%positive Demo.heap0 = Some (h', Ok q)
    /\ Store.storages h' !! 1%positive = Some [2%Q]
    /\ Store.storages h' !! 2%positive = Some [(1 # 2)%Q]
    /\ Store.dicts h' !! 1%positive = Store.dicts Demo.heap0 !! 1%positive
    /\ Store.dicts Demo.heap0 !! q = None.
Proof.
  destruct (reduce_loss_dict_leaves_input Demo.tadd Demo.tdiv Demo.scratch
              2%Z 0%Z [stacked Demo.peer_dict] 1%positive Demo.heap0
              [("loss_objectness", Store.TensorRef 1 0);
               ("loss_classifier", Store.TensorRef 2 0)])
    as (h' & res & Hrun & Hst & Hdi & _ & _ & Hnew).
  - reflexivity.
  - repeat constructor; eexists; reflexivity.
  - destruct Hnew as (q & a & reduced & -> & Hq & _); [lia|discriminate|].
    exists h', q. split; [exact Hrun|].
    split; [apply Hst; reflexivity|]. split; [apply Hst; reflexivity|].
    split; [|exact Hq]. apply Hdi. reflexivity.
Defined.

(** ** The further properties on the small instance *)

Lemma do_train_empty_training_loader_witness :
  exists s',
    Demo.do_train_of Demo.model [] Demo.test_data_loader 2 0 Demo.arguments5 0%nat
      = (s', Raise ZeroDivisionError)
    /\ arguments s' = Demo.arguments5
    /\ count_calls is_forward (trace s') = 2%nat.
Proof.
  destruct (do_train_empty_training_loader Demo.tadd Demo.tdiv Demo.tzero
              Demo.scratch (Demo.group 2 0) Demo.backward Demo.to_img Demo.to_tgt
              Demo.new_MetricLogger Demo.meters_update Demo.model
              Demo.test_data_loader Demo.optimizer Demo.scheduler "cuda"
              Demo.arguments5 0%nat 5%Z)
    as (s' & Hrun & Hargs & Hfwd & _).
  - reflexivity.
  - exact demo_model_usable.
  - exists s'. split; [exact Hrun|]. split; [exact Hargs|exact Hfwd].
Defined.

Lemma do_train_missing_iteration_witness :
  Demo.do_train_of Demo.model Demo.train_data_loader Demo.test_data_loader 2 0
                   ∅ 0%nat
  = (mkState 0%nat [EvLog StartTraining] ∅, Raise (KeyError "iteration")).
Proof.
  apply (do_train_missing_iteration Demo.tadd Demo.tdiv Demo.tzero
           Demo.scratch (Demo.group 2 0) Demo.backward Demo.to_img Demo.to_tgt
           Demo.new_MetricLogger Demo.meters_update Demo.model
           Demo.train_data_loader Demo.test_data_loader
           Demo.optimizer Demo.scheduler "cuda" ∅ 0%nat).
  reflexivity.
Defined.

Lemma empty_loss_dict_iteration_witness :
  (Demo.train_iteration_of Demo.empty_model 1 0 3 0 Demo.good_batch [] Demo.s0).2
    = Raise AttributeError
  /\ (Demo.test_iteration_of Demo.empty_model 1 0 Demo.good_batch [] Demo.s0).2
     = Ok [[("loss", 0%Q)]].
Proof.
  destruct (empty_loss_dict_iteration Demo.tadd Demo.tdiv Demo.tzero
              Demo.scratch (Demo.group 1 0) Demo.backward Demo.to_img Demo.to_tgt
              Demo.meters_update Demo.empty_model Demo.optimizer Demo.scheduler
              "cuda" 3%Z 0%Z 2%Z [7%Z] tt [] Demo.s0 0%nat Demo.s0 0%nat)
    as [Htrain Htest].
  - reflexivity.
  - reflexivity.
  - unfold Demo.train_iteration_of, Demo.test_iteration_of, Demo.good_batch.
    rewrite Htrain, Htest. split; reflexivity.
Defined.

Lemma loss_name_clash_iteration_witness :
  (Demo.train_iteration_of Demo.clash_model 2 0 3 0 Demo.good_batch [] Demo.s0).2
    = Raise TypeError
  /\ count_calls is_reduce
       (trace (Demo.train_iteration_of Demo.clash_model 2 0 3 0
                 Demo.good_batch [] Demo.s0).1) = 1%nat
  /\ (Demo.test_iteration_of Demo.clash_model 2 0 Demo.good_batch [] Demo.s0).2
     = Raise TypeError.
Proof.
  destruct (loss_name_clash_iteration Demo.tadd Demo.tdiv Demo.tzero
              Demo.scratch (Demo.group 2 0) Demo.backward Demo.to_img Demo.to_tgt
              Demo.meters_update Demo.clash_model Demo.optimizer Demo.scheduler
              "cuda" 3%Z 0%Z 2%Z [7%Z] tt [] Demo.s0 0%nat
              [("loss", 2%Q); ("loss_mask", 1%Q)] Demo.s0 0%nat)
    as [Htrain Htest].
  - reflexivity.
  - reflexivity.
  - unfold keys. simpl. apply elem_of_cons. by left.
  - unfold Demo.train_iteration_of, Demo.test_iteration_of, Demo.good_batch.
    rewrite Htrain, Htest. repeat split; reflexivity.
Defined.

Lemma demo_run :
  Demo.do_train 2 0 Demo.arguments5 0%nat
  = ((Demo.do_train 2 0 Demo.arguments5 0%nat).1,
     Ok ([[("loss", 5%Q); ("loss_classifier", 1%Q); ("loss_objectness", 4%Q)];
          [("loss", 4%Q); ("loss_classifier", 1%Q); ("loss_objectness", 3%Q)]],
         [[("loss", 4%Q); ("loss_classifier", 1%Q); ("loss_objectness", 3%Q)]])).
Proof. vm_compute. reflexivity. Qed.

Lemma do_train_gradient_steps_complete_witness :
  count_calls is_zero_grad (trace (Demo.do_train 2 0 Demo.arguments5 0%nat).1)
    = count_calls is_backward (trace (Demo.do_train 2 0 Demo.arguments5 0%nat).1)
  /\ count_calls is_backward (trace (Demo.do_train 2 0 Demo.arguments5 0%nat).1)
     = count_calls is_optimizer_step
         (trace (Demo.do_train 2 0 Demo.arguments5 0%nat).1)
  /\ (count_calls is_optimizer_step
        (trace (Demo.do_train 2 0 Demo.arguments5 0%nat).1) <= 3)%nat.
Proof.
  exact (do_train_gradient_steps_complete Demo.tadd Demo.tdiv Demo.tzero
           Demo.scratch (Demo.group 2 0) Demo.backward Demo.to_img Demo.to_tgt
           Demo.new_MetricLogger Demo.meters_update Demo.model
           Demo.train_data_loader Demo.test_data_loader
           Demo.optimizer Demo.scheduler "cuda" Demo.arguments5 0%nat _ _ demo_run).
Defined.

Lemma do_train_forward_once_per_batch_witness :
  count_calls is_forward (trace (Demo.do_train 2 0 Demo.arguments5 0%nat).1)
    = 5%nat
  /\ count_calls is_model_train (trace (Demo.do_train 2 0 Demo.arguments5 0%nat).1)
     = 1%nat.
Proof.
  exact (do_train_forward_once_per_batch Demo.tadd Demo.tdiv Demo.tzero
           Demo.scratch (Demo.group 2 0) Demo.backward Demo.to_img Demo.to_tgt
           Demo.new_MetricLogger Demo.meters_update Demo.model
           Demo.train_data_loader Demo.test_data_loader
           Demo.optimizer Demo.scheduler "cuda" Demo.arguments5 0%nat _ _ demo_run).
Defined.

Lemma do_train_all_batches_dropped_witness :
  exists s',
    Demo.do_train_of Demo.broken_model Demo.train_data_loader
                     Demo.test_data_loader 2 0 Demo.arguments5 0%nat
      = (s', Ok ([], []))
    /\ arguments s' !! "iteration" = Some 8%Z
    /\ count_calls is_optimizer_step (trace s') = 0%nat.
Proof.
  destruct (do_train_all_batches_dropped Demo.tadd Demo.tdiv Demo.tzero
              Demo.scratch (Demo.group 2 0) Demo.backward Demo.to_img Demo.to_tgt
              Demo.new_MetricLogger Demo.meters_update Demo.broken_model
              Demo.train_data_loader Demo.test_data_loader
              Demo.optimizer Demo.scheduler "cuda" Demo.arguments5 0%nat 5%Z)
    as (s' & Hrun & Hargs & _ & Hsteps & _).
  - intros images targets rt. eexists _, _. reflexivity.
  - discriminate.
  - reflexivity.
  - exists s'. split; [exact Hrun|]. split; [|exact Hsteps].
    rewrite Hargs. apply lookup_insert_eq.
Defined.

Lemma reduce_loss_dict_order_independent_witness :
  Demo.reduce_loss_dict 2 0 Demo.loss_dict Demo.s0
  = Demo.reduce_loss_dict 2 0 Demo.loss_dict_swapped Demo.s0.
Proof.
  apply (reduce_loss_dict_order_independent Demo.tadd Demo.tdiv Demo.scratch
           (Demo.group 2 0) Demo.loss_dict Demo.loss_dict_swapped Demo.s0).
  - simpl. lia.
  - by apply (bool_decide_unpack _).
  - apply perm_swap.
Defined.

Lemma single_worker_logs_what_it_optimizes_witness :
  (Demo.train_iteration 1 0 3 0 Demo.good_batch [] Demo.s0).2
    = Ok [[("loss", (5 # 2)%Q); ("loss_objectness", 2%Q);
           ("loss_classifier", (1 # 2)%Q)]]
  /\ trace (Demo.train_iteration 1 0 3 0 Demo.good_batch [] Demo.s0).1
     = [EvSchedulerStep; EvForward 2%Z [7%Z]; EvZeroGrad;
        EvBackward (5 # 2)%Q; EvOptimizerStep].
Proof.
  unfold Demo.train_iteration, Demo.good_batch.
  rewrite (single_worker_logs_what_it_optimizes Demo.tadd Demo.tdiv Demo.tzero
             Demo.scratch (Demo.group 1 0) Demo.backward Demo.to_img Demo.to_tgt
             Demo.meters_update Demo.model Demo.optimizer Demo.scheduler "cuda"
             3%Z 0%Z 2%Z [7%Z] tt [] Demo.s0 0%nat
             [("loss_objectness", 2%Q); ("loss_classifier", (1 # 2)%Q)]).
  - split; reflexivity.
  - simpl. lia.
  - reflexivity.
  - discriminate.
  - unfold keys. simpl. rewrite !elem_of_cons, elem_of_nil.
    intros [?|[?|[]]]; discriminate.
Defined.

Lemma do_train_leaves_other_arguments_witness :
  arguments (Demo.do_train 2 0 (<["seed" := 42%Z]> Demo.arguments5) 0%nat).1
    !! "seed" = Some 42%Z.
Proof.
  unfold Demo.do_train.
  rewrite (do_train_leaves_other_arguments Demo.tadd Demo.tdiv Demo.tzero
             Demo.scratch (Demo.group 2 0) Demo.backward Demo.to_img Demo.to_tgt
             Demo.new_MetricLogger Demo.meters_update Demo.model
             Demo.train_data_loader Demo.test_data_loader
             Demo.optimizer Demo.scheduler "cuda"
             (<["seed" := 42%Z]> Demo.arguments5) 0%nat "seed").
  - reflexivity.
  - discriminate.
Defined.

Lemma store_refines_values_witness :
  exists h' q d' vals',
    Demo.store_reduce_loss_dict 2 0 1%positive Demo.heap0 = Some (h', Ok q)
    /\ Store.dicts h' !! q = Some d'
    /\ Store.load h' d' = Some vals'
    /\ (Demo.reduce_loss_dict 2 0 Demo.loss_dict Demo.s0).2 = Ok vals'.
Proof.
  pose proof (store_refines_values Demo.tadd Demo.tdiv Demo.scratch
                (Demo.group 2 0) 1%positive Demo.heap0
                [("loss_objectness", Store.TensorRef 1 0);
                 ("loss_classifier", Store.TensorRef 2 0)]
                Demo.loss_dict Demo.s0 eq_refl eq_refl) as H.
  change (Store.reduce_loss_dict Demo.tadd Demo.tdiv Demo.scratch
            (get_world_size (Demo.group 2 0)) (get_rank (Demo.group 2 0))
            (peer_tensors (Demo.group 2 0) (runtime Demo.s0)) 1%positive Demo.heap0)
    with (Demo.store_reduce_loss_dict 2 0 1%positive Demo.heap0) in H.
  destruct (Demo.store_reduce_loss_dict 2 0 1%positive Demo.heap0)
    as [[h' [q|e]]|]; [|vm_compute in H; discriminate|destruct H].
  destruct H as (d' & vals' & Hd & Hl & Hv).
  by exists h', q, d', vals'.
Defined.
